(** * MicroCrop USSD: the session state machine of [index.js]

    A shallow embedding of the request handler [app.post('/ussd')], of the
    expiry sweeper, of [cleanupSession] and of the menu generators, together
    with the properties of the dialogue they implement.

    Modelling conventions.
    - JavaScript strings are [string]s holding the UTF-8 bytes of the text;
      the delimiter ['*'], the digits and the menu texts are ASCII, so
      splitting and prefix tests agree with the UTF-16 view of the engine.
    - The two global objects [sessionData] and [farmerDatabase] are finite
      maps from strings that hold their own properties, and the literal
      tables [counties] and [crops] are partial functions that hold
      theirs.  A JavaScript lookup that finds no own property goes on
      along the prototype chain: [plain] and [plain_phone] say which keys
      name nothing there, [regular] which session ids the handler serves
      from the store, and whatever depends on a lookup that finds nothing,
      or on where line 236 writes, is stated for such keys only.
    - [Date.now()] is an integer number of milliseconds.  A request carries
      the reading of line 62 or 67 ([req_now]) and the reading of line 63
      ([req_created]), which is taken only when a session is created.  The
      text produced by [toLocaleString] is an input of the request.
    - A JavaScript Number is a [spec_float] of binary64, the result of
      [parseFloat] being the correctly rounded value of the literal. *)

From Stdlib Require Import ZArith String Ascii List Bool Lia.
From Stdlib Require Import Floats.SpecFloat.
From Stdlib Require Import Numbers.DecimalString.
From stdpp Require Import base gmap strings list fin_maps.

Import ListNotations.
Local Open Scope string_scope.
Local Open Scope Z_scope.

(** ** Strings *)

Definition nl : string := String (ascii_of_nat 10) EmptyString.

(** [s.startsWith(p)] *)
Fixpoint startsWith (p s : string) : bool :=
  match p, s with
  | EmptyString, _ => true
  | String a p', String b s' => Ascii.eqb a b && startsWith p' s'
  | String _ _, EmptyString => false
  end.

(** Truthiness of a string: every string but the empty one. *)
Definition truthy (s : string) : bool := negb (String.eqb s "").

(** [s.split(d)] for a one-character delimiter: the segments between the
    delimiters, empty ones included; never the empty list. *)
Fixpoint split (d : ascii) (s : string) : list string :=
  match s with
  | EmptyString => [EmptyString]
  | String c r =>
      if Ascii.eqb c d then EmptyString :: split d r
      else match split d r with
           | seg :: segs => String c seg :: segs
           | [] => [String c EmptyString]
           end
  end.

(** [l[i]] for an integer index: [undefined] out of range. *)
Definition index {A} (l : list A) (i : Z) : option A :=
  if i <? 0 then None else l !! Z.to_nat i.

(** [o || d] for a possibly undefined string [o]. *)
Definition or_else (o : option string) (d : string) : string :=
  match o with
  | Some s => if truthy s then s else d
  | None => d
  end.

(** ** Input decoding (lines 52-54) *)

Definition star : ascii := "*"%char.

Definition userInputs (text : string) : list string :=
  List.filter truthy (split star text).

Definition currentInput (text : string) : string :=
  let inputs := userInputs text in
  or_else (index inputs (Z.of_nat (length inputs) - 1)) "".

Definition inputLevel (text : string) : Z :=
  Z.of_nat (length (userInputs text)).

(** ** White space and [trim] *)

(** Length in bytes of the white-space character (WhiteSpace or
    LineTerminator of ECMAScript) that starts [s], if one does. *)
Definition ws_len (s : string) : option nat :=
  match s with
  | String a r =>
      let n := nat_of_ascii a in
      if (Nat.leb 9 n && Nat.leb n 13) || Nat.eqb n 32 then Some 1%nat
      else if Nat.eqb n 194 then
        match r with
        | String b _ => if Nat.eqb (nat_of_ascii b) 160 then Some 2%nat else None  (* U+00A0 *)
        | EmptyString => None
        end
      else if Nat.eqb n 225 || Nat.eqb n 226 || Nat.eqb n 227 || Nat.eqb n 239 then
        match r with
        | String b (String c _) =>
            let m := nat_of_ascii b in
            let k := nat_of_ascii c in
            if Nat.eqb n 225 then
              if Nat.eqb m 154 && Nat.eqb k 128 then Some 3%nat else None   (* U+1680 *)
            else if Nat.eqb n 226 then
              if Nat.eqb m 128 &&
                 ((Nat.leb 128 k && Nat.leb k 138)              (* U+2000..U+200A *)
                  || Nat.eqb k 168 || Nat.eqb k 169            (* U+2028, U+2029 *)
                  || Nat.eqb k 175)                            (* U+202F *)
              then Some 3%nat
              else if Nat.eqb m 129 && Nat.eqb k 159 then Some 3%nat        (* U+205F *)
              else None
            else if Nat.eqb n 227 then
              if Nat.eqb m 128 && Nat.eqb k 128 then Some 3%nat else None   (* U+3000 *)
            else
              if Nat.eqb m 187 && Nat.eqb k 191 then Some 3%nat else None   (* U+FEFF *)
        | _ => None
        end
      else None
  | EmptyString => None
  end.

Fixpoint drop_bytes (n : nat) (s : string) : string :=
  match n, s with
  | O, _ => s
  | S n', String _ r => drop_bytes n' r
  | S _, EmptyString => EmptyString
  end.

(** [s.trimStart()]; the fuel is the length of [s]. *)
Fixpoint trimStart_fuel (fuel : nat) (s : string) : string :=
  match fuel with
  | O => s
  | S fuel' =>
      match ws_len s with
      | Some n => trimStart_fuel fuel' (drop_bytes n s)
      | None => s
      end
  end.

Definition trimStart (s : string) : string := trimStart_fuel (String.length s) s.

(** [s.trimEnd()]: cut where only white space follows. *)
Fixpoint trimEnd (s : string) : string :=
  match s with
  | EmptyString => EmptyString
  | String c r =>
      if String.eqb (trimStart s) "" then EmptyString else String c (trimEnd r)
  end.

Definition trim (s : string) : string := trimEnd (trimStart s).

(** ** Numbers: [parseFloat], comparison with zero, and Number-to-string *)

Definition prec : Z := 53.
Definition emax : Z := 1024.

(** The Number value of the rational [num / den] with sign [sx]
    ([0 <= num], [0 < den]): rounded to nearest, ties to even. *)
Definition round_ratio (sx : bool) (num den : Z) : spec_float :=
  let '(q, e, l) := SFdiv_core_binary prec emax num 0 den 0 in
  binary_round_aux prec emax sx q e l.

(** The Number value of the decimal [m * 10^e10] with sign [sx]. *)
Definition round_decimal (sx : bool) (m e10 : Z) : spec_float :=
  if 0 <=? e10 then round_ratio sx (m * 10 ^ e10) 1
  else round_ratio sx m (10 ^ (- e10)).

Definition is_digit (c : ascii) : bool :=
  let n := nat_of_ascii c in Nat.leb 48 n && Nat.leb n 57.

Definition digit_val (c : ascii) : Z := Z.of_nat (nat_of_ascii c) - 48.

(** DecimalDigits at the start of [s]: their value read after [acc], their
    number added to [n], and what follows them. *)
Fixpoint digits (s : string) (acc n : Z) : Z * Z * string :=
  match s with
  | String c r =>
      if is_digit c then digits r (10 * acc + digit_val c) (n + 1)
      else (acc, n, s)
  | EmptyString => (acc, n, s)
  end.

(** The value of the ExponentPart at the start of [s]; [0] when [s] does
    not start with a complete one. *)
Definition exponentPart (s : string) : Z :=
  match s with
  | String c r =>
      if Ascii.eqb c "e" || Ascii.eqb c "E" then
        let '(neg, r1) :=
          match r with
          | String d r' =>
              if Ascii.eqb d "+" then (false, r')
              else if Ascii.eqb d "-" then (true, r')
              else (false, r)
          | EmptyString => (false, r)
          end in
        let '(v, n, _) := digits r1 0 0 in
        if 0 <? n then (if neg then - v else v) else 0
      else 0
  | EmptyString => 0
  end.

(** The longest prefix of [s] that is a StrUnsignedDecimalLiteral, as a
    Number of sign [sx]; [NaN] when there is none. *)
Definition unsignedLiteral (sx : bool) (s : string) : spec_float :=
  if startsWith "Infinity" s then S754_infinity sx
  else
    let '(ip, ni, r) := digits s 0 0 in
    match r with
    | String c r1 =>
        if Ascii.eqb c "." then
          let '(m, nf, r2) := digits r1 ip 0 in
          if (0 <? ni) || (0 <? nf)
          then round_decimal sx m (exponentPart r2 - nf)
          else S754_nan
        else if 0 <? ni then round_decimal sx ip (exponentPart r) else S754_nan
    | EmptyString => if 0 <? ni then round_decimal sx ip 0 else S754_nan
    end.

Definition parseFloat (s : string) : spec_float :=
  match trimStart s with
  | String c r =>
      if Ascii.eqb c "+" then unsignedLiteral false r
      else if Ascii.eqb c "-" then unsignedLiteral true r
      else unsignedLiteral false (String c r)
  | EmptyString => S754_nan
  end.

Definition isNaN (x : spec_float) : bool :=
  match x with S754_nan => true | _ => false end.

(** [x <= 0] *)
Definition le_zero (x : spec_float) : bool := SFleb x (S754_zero false).

Definition isFinite (x : spec_float) : bool :=
  match x with S754_zero _ | S754_finite _ _ _ => true | _ => false end.

Definition number_eqb (x y : spec_float) : bool :=
  match x, y with
  | S754_zero a, S754_zero b => Bool.eqb a b
  | S754_infinity a, S754_infinity b => Bool.eqb a b
  | S754_finite a m e, S754_finite b m' e' => Bool.eqb a b && Pos.eqb m m' && Z.eqb e e'
  | _, _ => false
  end.

Definition Z_to_string (z : Z) : string :=
  NilZero.string_of_uint (N.to_uint (Z.to_N z)).

Fixpoint zeros (n : nat) : string :=
  match n with O => "" | S n' => String "0" (zeros n') end.

(** The least [j >= j0] with [den <= num * 10^j], searched [fuel] times. *)
Fixpoint lead_zeros (fuel : nat) (num den j : Z) : Z :=
  match fuel with
  | O => j
  | S fuel' =>
      if den <=? num * 10 ^ j then j else lead_zeros fuel' num den (j + 1)
  end.

(** The [n] with [10^(n-1) <= num/den < 10^n]. *)
Definition magnitude (num den : Z) : Z :=
  if den <=? num then Z.of_nat (String.length (Z_to_string (num / den)))
  else 1 - lead_zeros 400 num den 1.

(** The digits [s] and the exponent [n] of Number::toString for the
    positive Number [x = num/den]: the fewest digits [k], tried from [k]
    upwards, such that [s * 10^(n-k)] rounds to [x], and among those the
    closest to [x]. *)
Fixpoint shortest (fuel : nat) (x : spec_float) (num den n k : Z) : Z * Z :=
  let scale := n - k in
  let lo := if 0 <=? scale then num / (den * 10 ^ scale)
            else (num * 10 ^ (- scale)) / den in
  let hi := lo + 1 in
  let norm s := if s =? 10 ^ k then (10 ^ (k - 1), n + 1) else (s, n) in
  let ok s := number_eqb (round_decimal false s scale) x in
  let side := if 0 <=? scale
              then Z.compare (2 * num) ((2 * lo + 1) * 10 ^ scale * den)
              else Z.compare (2 * num * 10 ^ (- scale)) ((2 * lo + 1) * den) in
  match fuel with
  | O => norm lo
  | S fuel' =>
      match ok lo, ok hi with
      | true, true =>
          match side with
          | Lt => norm lo
          | Gt => norm hi
          | Eq => if Z.even lo then norm lo else norm hi
          end
      | true, false => norm lo
      | false, true => norm hi
      | false, false => shortest fuel' x num den n (k + 1)
      end
  end.

Definition format_digits (ds : string) (n : Z) : string :=
  let k := Z.of_nat (String.length ds) in
  if (k <=? n) && (n <=? 21) then ds ++ zeros (Z.to_nat (n - k))
  else if (0 <? n) && (n <=? 21) then
    substring 0 (Z.to_nat n) ds ++ "." ++ substring (Z.to_nat n) (Z.to_nat (k - n)) ds
  else if (-6 <? n) && (n <=? 0) then "0." ++ zeros (Z.to_nat (- n)) ++ ds
  else
    let e := n - 1 in
    let es := (if e <? 0 then "-" else "+") ++ Z_to_string (Z.abs e) in
    if k =? 1 then ds ++ "e" ++ es
    else substring 0 1 ds ++ "." ++ substring 1 (Z.to_nat (k - 1)) ds ++ "e" ++ es.

(** Number::toString, radix 10. *)
Definition number_to_string (x : spec_float) : string :=
  match x with
  | S754_nan => "NaN"
  | S754_zero _ => "0"
  | S754_infinity sx => (if sx then "-" else "") ++ "Infinity"
  | S754_finite sx m e =>
      let '(num, den) := if 0 <=? e then (Zpos m * 2 ^ e, 1) else (Zpos m, 2 ^ (- e)) in
      let '(s, n) := shortest 17 (S754_finite false m e) num den (magnitude num den) 1 in
      (if sx then "-" else "") ++ format_digits (Z_to_string s) n
  end.

(** ** Data model (lines 11-18, 57-64, 229-236) *)

Inductive Stage :=
  | MAIN_MENU | ENTER_NAME | SELECT_COUNTY | ENTER_CUSTOM_COUNTY
  | SELECT_CROP | ENTER_CUSTOM_CROP | ENTER_FARM_SIZE | CONFIRM_REGISTRATION.

Definition stage_eqb (a b : Stage) : bool :=
  match a, b with
  | MAIN_MENU, MAIN_MENU | ENTER_NAME, ENTER_NAME
  | SELECT_COUNTY, SELECT_COUNTY | ENTER_CUSTOM_COUNTY, ENTER_CUSTOM_COUNTY
  | SELECT_CROP, SELECT_CROP | ENTER_CUSTOM_CROP, ENTER_CUSTOM_CROP
  | ENTER_FARM_SIZE, ENTER_FARM_SIZE
  | CONFIRM_REGISTRATION, CONFIRM_REGISTRATION => true
  | _, _ => false
  end.

(** [session.farmerData]: a field that was never assigned is [None]. *)
Record FarmerData := mkFarmerData {
  name : option string;
  county : option string;
  crop : option string;
  farmSize : option spec_float
}.

Record Session := mkSession {
  phoneNumber : string;
  stage : Stage;
  farmerData : FarmerData;
  lastActivity : Z;
  createdAt : Z
}.

(** An entry of [farmerDatabase]: the fields of [farmerData] spread, then
    [phoneNumber] and [registrationDate]. *)
Record Farmer := mkFarmer {
  farmer_data : FarmerData;
  farmer_phoneNumber : string;
  registrationDate : string
}.

Record State := mkState {
  sessionData : gmap string Session;
  farmerDatabase : gmap string Farmer
}.

Definition initial : State := mkState ∅ ∅.

Definition SESSION_TIMEOUT : Z := 5 * 60 * 1000.

(** The body of a request and the readings of the clock taken for it:
    [req_now] at line 62 or 67, [req_created] at line 63. *)
Record Request := mkRequest {
  req_sessionId : string;
  req_phoneNumber : string;
  req_text : string;
  req_now : Z;
  req_created : Z;
  req_date : string
}.

(** ** Inherited properties

    The objects of the program are made by object literals, so a lookup
    [o[k]] finds, beyond the own properties of [o], the properties of
    [Object.prototype].  When the session id is ["__proto__"], line 67 and
    the assignments to [session.stage] add [lastActivity] and [stage] to
    [Object.prototype] itself; when the phone number is ["__proto__"],
    line 236 makes the record the prototype of [farmerDatabase] instead of
    an entry, and the fields of the record are found there too. *)

Definition objectPrototype : list string :=
  ["constructor"; "__defineGetter__"; "__defineSetter__"; "hasOwnProperty";
   "__lookupGetter__"; "__lookupSetter__"; "isPrototypeOf"; "propertyIsEnumerable";
   "toString"; "valueOf"; "__proto__"; "toLocaleString"].

Definition inheritable : list string :=
  (objectPrototype ++ ["stage"; "lastActivity"])%list.

Definition recordFields : list string :=
  ["name"; "county"; "crop"; "farmSize"; "phoneNumber"; "registrationDate"].

(** [k] names no property that [sessionData], [counties] or [crops] can
    inherit: a lookup finds what the object itself holds, or nothing. *)
Definition plain (k : string) : bool :=
  negb (existsb (String.eqb k) inheritable).

(** [k] names no property that [farmerDatabase] can inherit. *)
Definition plain_phone (k : string) : bool :=
  negb (existsb (String.eqb k) (inheritable ++ recordFields)%list).

(** The lookup [sessionData[sessionId]] of lines 57 and 71 finds what the
    store holds: the id is stored, or it is plain, so that nothing is
    found and line 58 creates the session. *)
Definition regular (sessionId : string) (st : State) : Prop :=
  is_Some (sessionData st !! sessionId) \/ plain sessionId = true.

(** ** [cleanupSession] (lines 752-758) *)

Definition cleanupSession (sessionId : string) (st : State) : State :=
  match sessionData st !! sessionId with
  | Some _ => mkState (delete sessionId (sessionData st)) (farmerDatabase st)
  | None => st
  end.

(** ** The sweeper (lines 21-29): one tick at time [now] *)

Definition expired (now : Z) (s : Session) : bool :=
  SESSION_TIMEOUT <? now - lastActivity s.

(** The body of the [forEach], for one key. *)
Definition sweep_key (now : Z) (sessions : gmap string Session) (sessionId : string)
  : gmap string Session :=
  match sessions !! sessionId with
  | Some s => if expired now s then delete sessionId sessions else sessions
  | None => sessions
  end.

(** [Object.keys(sessionData)] is taken once, then visited in order. *)
Definition sweep (now : Z) (st : State) : State :=
  mkState (foldl (sweep_key now) (sessionData st) (map_to_list (sessionData st)).*1)
          (farmerDatabase st).

(** ** Menus and screens (lines 709-747) *)

Definition generateMainMenu : string :=
  "CON Welcome to Farmer Registration Service" ++ nl ++
  "Please select an option:" ++ nl ++
  "1. Register as new farmer" ++ nl ++
  "2. Check registration status" ++ nl ++
  "3. Exit".

Definition generateCropMenu : string :=
  "CON Select your main crop:" ++ nl ++
  "1. Maize" ++ nl ++
  "2. Wheat" ++ nl ++
  "3. Rice" ++ nl ++
  "4. Beans" ++ nl ++
  "5. Potatoes" ++ nl ++
  "6. Tea" ++ nl ++
  "7. Coffee" ++ nl ++
  "8. Sugarcane" ++ nl ++
  "9. Other".

(** A template substitution [${v}] of a possibly undefined string. *)
Definition show_string (o : option string) : string :=
  match o with Some s => s | None => "undefined" end.

(** A template substitution [${v}] of a possibly undefined Number. *)
Definition show_number (o : option spec_float) : string :=
  match o with Some x => number_to_string x | None => "undefined" end.

Definition generateConfirmation (data : FarmerData) : string :=
  "CON Confirm your details:" ++ nl ++
  "Name: " ++ show_string (name data) ++ nl ++
  "County: " ++ show_string (county data) ++ nl ++
  "Crop: " ++ show_string (crop data) ++ nl ++
  "Farm: " ++ show_number (farmSize data) ++ " acres" ++ nl ++ nl ++
  "1. Confirm & Register" ++ nl ++
  "2. Cancel".

Definition namePrompt : string :=
  "CON Welcome to Farmer Registration" ++ nl ++
  "Please enter your full name:".

Definition registrationDetails (farmer : Farmer) : string :=
  "END Your Registration Details:" ++ nl ++
  "Name: " ++ show_string (name (farmer_data farmer)) ++ nl ++
  "County: " ++ show_string (county (farmer_data farmer)) ++ nl ++
  "Crop: " ++ show_string (crop (farmer_data farmer)) ++ nl ++
  "Farm Size: " ++ show_number (farmSize (farmer_data farmer)) ++ " acres" ++ nl ++
  "Registered: " ++ registrationDate farmer.

Definition notRegistered : string :=
  "END You are not registered yet." ++ nl ++
  "Please dial again and select option 1 to register.".

Definition goodbye : string :=
  "END Thank you for using Farmer Registration Service." ++ nl ++
  "Goodbye!".

Definition invalidOption : string := "END Invalid option. Please try again.".

Definition countyMenu : string :=
  "CON Enter your county location:" ++ nl ++
  "1. Nairobi" ++ nl ++
  "2. Kiambu" ++ nl ++
  "3. Machakos" ++ nl ++
  "4. Nakuru" ++ nl ++
  "5. Meru" ++ nl ++
  "6. Kisumu" ++ nl ++
  "7. Mombasa" ++ nl ++
  "8. Other".

Definition customCountyPrompt : string := "CON Please type your county name:".
Definition customCropPrompt : string := "CON Please type your crop type:".
Definition invalidSelection : string := "END Invalid selection. Please try again.".

Definition farmSizePrompt : string :=
  "CON Enter your farm size in acres:" ++ nl ++
  "(Example: 2.5 or 10)".

Definition farmSizeRetry : string :=
  "CON Invalid farm size. Please enter a valid number:" ++ nl ++
  "(Example: 2.5 or 10)".

Definition registrationSuccessful (data : FarmerData) : string :=
  "END Registration successful!" ++ nl ++
  "Thank you " ++ show_string (name data) ++ "." ++ nl ++
  "You will receive SMS confirmation shortly." ++ nl ++
  "For assistance, call 0700000000".

Definition registrationCancelled : string :=
  "END Registration cancelled." ++ nl ++
  "Dial again to start over.".

Definition invalidCancelled : string := "END Invalid option. Registration cancelled.".
Definition unexpectedState : string := "END An error occurred. Please dial again to restart.".
Definition systemError : string := "END System error. Please try again later.".
Definition requestTimeout : string := "END Request timeout. Please try again.".

(** The literal tables of the county and crop menus: their own
    properties.  The lookups of lines 164 and 195 find these for a [plain]
    key. *)
Definition counties (k : string) : option string :=
  if String.eqb k "1" then Some "Nairobi"
  else if String.eqb k "2" then Some "Kiambu"
  else if String.eqb k "3" then Some "Machakos"
  else if String.eqb k "4" then Some "Nakuru"
  else if String.eqb k "5" then Some "Meru"
  else if String.eqb k "6" then Some "Kisumu"
  else if String.eqb k "7" then Some "Mombasa"
  else None.

Definition crops (k : string) : option string :=
  if String.eqb k "1" then Some "Maize"
  else if String.eqb k "2" then Some "Wheat"
  else if String.eqb k "3" then Some "Rice"
  else if String.eqb k "4" then Some "Beans"
  else if String.eqb k "5" then Some "Potatoes"
  else if String.eqb k "6" then Some "Tea"
  else if String.eqb k "7" then Some "Coffee"
  else if String.eqb k "8" then Some "Sugarcane"
  else None.

(** ** The request handler (lines 35-298) *)

(** The object literal of lines 58-64: [now] is the reading of line 62,
    [created] the one of line 63. *)
Definition newSession (phone : string) (now created : Z) : Session :=
  mkSession phone MAIN_MENU (mkFarmerData None None None None) now created.

Definition set_lastActivity (v : Z) (s : Session) : Session :=
  mkSession (phoneNumber s) (stage s) (farmerData s) v (createdAt s).

Definition set_stage (v : Stage) (s : Session) : Session :=
  mkSession (phoneNumber s) v (farmerData s) (lastActivity s) (createdAt s).

Definition set_farmerData (f : FarmerData -> FarmerData) (s : Session) : Session :=
  mkSession (phoneNumber s) (stage s) (f (farmerData s)) (lastActivity s) (createdAt s).

Definition set_name (v : string) (d : FarmerData) : FarmerData :=
  mkFarmerData (Some v) (county d) (crop d) (farmSize d).

Definition set_county (v : string) (d : FarmerData) : FarmerData :=
  mkFarmerData (name d) (Some v) (crop d) (farmSize d).

Definition set_crop (v : string) (d : FarmerData) : FarmerData :=
  mkFarmerData (name d) (county d) (Some v) (farmSize d).

Definition set_farmSize (v : spec_float) (d : FarmerData) : FarmerData :=
  mkFarmerData (name d) (county d) (crop d) (Some v).

(** An assignment through the alias [session]: the object that
    [sessionData] holds under [sessionId] is changed in place. *)
Definition assign (sessionId : string) (f : Session -> Session) (st : State) : State :=
  mkState (alter f sessionId (sessionData st)) (farmerDatabase st).

Definition store (sessionId : string) (s : Session) (st : State) : State :=
  mkState (<[sessionId := s]> (sessionData st)) (farmerDatabase st).

Definition register (phone : string) (f : Farmer) (st : State) : State :=
  mkState (sessionData st) (<[phone := f]> (farmerDatabase st)).

(** Lines 56-68, for a [regular] id: create the session of an unseen id,
    else record the activity. *)
Definition touch (r : Request) (st : State) : State :=
  match sessionData st !! req_sessionId r with
  | None =>
      store (req_sessionId r)
        (newSession (req_phoneNumber r) (req_now r) (req_created r)) st
  | Some _ => assign (req_sessionId r) (set_lastActivity (req_now r)) st
  end.

(** Lines 93-275: the dispatch on text, input level and stage.  [session]
    is the object found under the id after [touch]; the result is the
    value of [response] and the state at line 276.  The registry and the
    two tables are looked up among their own properties, and line 236 is
    the insertion of an entry, as it is for every phone number but
    ["__proto__"]. *)
Definition flow (r : Request) (session : Session) (st : State) : string * State :=
  let sessionId := req_sessionId r in
  let text := req_text r in
  let cur := currentInput text in
  let level := inputLevel text in
  if String.eqb text "" then
    (generateMainMenu, assign sessionId (set_stage MAIN_MENU) st)
  else if level =? 1 then
    if String.eqb cur "1" then
      (namePrompt, assign sessionId (set_stage ENTER_NAME) st)
    else if String.eqb cur "2" then
      (match farmerDatabase st !! req_phoneNumber r with
       | Some farmer => registrationDetails farmer
       | None => notRegistered
       end, cleanupSession sessionId st)
    else if String.eqb cur "3" then (goodbye, cleanupSession sessionId st)
    else (invalidOption, cleanupSession sessionId st)
  else if stage_eqb (stage session) ENTER_NAME && (level =? 2) then
    (countyMenu,
     assign sessionId (set_stage SELECT_COUNTY)
       (assign sessionId (set_farmerData (set_name cur)) st))
  else if stage_eqb (stage session) SELECT_COUNTY && (level =? 3) then
    if String.eqb cur "8" then
      (customCountyPrompt, assign sessionId (set_stage ENTER_CUSTOM_COUNTY) st)
    else match counties cur with
    | Some c =>
        (generateCropMenu,
         assign sessionId (set_stage SELECT_CROP)
           (assign sessionId (set_farmerData (set_county c)) st))
    | None => (invalidSelection, cleanupSession sessionId st)
    end
  else if stage_eqb (stage session) ENTER_CUSTOM_COUNTY && (level =? 4) then
    (generateCropMenu,
     assign sessionId (set_stage SELECT_CROP)
       (assign sessionId (set_farmerData (set_county cur)) st))
  else if stage_eqb (stage session) SELECT_CROP then
    if String.eqb cur "9" then
      (customCropPrompt, assign sessionId (set_stage ENTER_CUSTOM_CROP) st)
    else match crops cur with
    | Some c =>
        (farmSizePrompt,
         assign sessionId (set_stage ENTER_FARM_SIZE)
           (assign sessionId (set_farmerData (set_crop c)) st))
    | None => (invalidSelection, cleanupSession sessionId st)
    end
  else if stage_eqb (stage session) ENTER_CUSTOM_CROP then
    (farmSizePrompt,
     assign sessionId (set_stage ENTER_FARM_SIZE)
       (assign sessionId (set_farmerData (set_crop cur)) st))
  else if stage_eqb (stage session) ENTER_FARM_SIZE then
    let size := parseFloat cur in
    if isNaN size || le_zero size then (farmSizeRetry, st)
    else
      (generateConfirmation (set_farmSize size (farmerData session)),
       assign sessionId (set_stage CONFIRM_REGISTRATION)
         (assign sessionId (set_farmerData (set_farmSize size)) st))
  else if stage_eqb (stage session) CONFIRM_REGISTRATION then
    if String.eqb cur "1" then
      let registrationData :=
        mkFarmer (farmerData session) (req_phoneNumber r) (req_date r) in
      (registrationSuccessful (farmerData session),
       cleanupSession sessionId (register (req_phoneNumber r) registrationData st))
    else if String.eqb cur "2" then (registrationCancelled, cleanupSession sessionId st)
    else (invalidCancelled, cleanupSession sessionId st)
  else
    if (level =? 1) && (String.eqb cur "1" || String.eqb cur "2" || String.eqb cur "3") then
      (generateMainMenu, assign sessionId (set_stage MAIN_MENU) st)
    else if (level =? 0) || String.eqb text "" then
      (generateMainMenu, assign sessionId (set_stage MAIN_MENU) st)
    else (unexpectedState, cleanupSession sessionId st).

(** Lines 277-282: the guard against an empty response. *)
Definition ensureResponse (sessionId : string) (out : string * State) : string * State :=
  let '(response, st) := out in
  if negb (truthy response) || String.eqb (trim response) ""
  then (systemError, cleanupSession sessionId st)
  else (response, st).

(** One call of the handler, for a [regular] session id: the text passed
    to [res.send] and the state it leaves. *)
Definition handler (r : Request) (st : State) : string * State :=
  let st0 := touch r st in
  match sessionData st0 !! req_sessionId r with
  | None =>
      (* lines 74-90 *)
      (generateMainMenu,
       assign (req_sessionId r) (set_stage MAIN_MENU)
         (store (req_sessionId r)
            (newSession (req_phoneNumber r) (req_now r) (req_created r)) st0))
  | Some session => ensureResponse (req_sessionId r) (flow r session st0)
  end.

(** ** The response deadline (lines 43-49) *)

(** The part of the Express response object that the handler uses. *)
Record Response := mkResponse {
  headersSent : bool;
  contentType : option string;
  body : option string
}.

Definition send (text : string) (res : Response) : Response :=
  mkResponse true (contentType res) (Some text).

Definition set_contentType (v : string) (res : Response) : Response :=
  mkResponse (headersSent res) (Some v) (body res).


(** The handler as the response object sees it (lines 35-298): the text it
    computed is sent once, as [text/plain]. *)
Definition post_ussd (r : Request) (res : Response) (st : State) : Response * State :=
  let '(response, st') := handler r st in
  (send response (set_contentType "text/plain" res), st').

(** ** Runs of the service *)

Inductive Event :=
  | Post (r : Request)
  | Tick (now : Z).

Definition step (st : State) (e : Event) : State :=
  match e with
  | Post r => snd (handler r st)
  | Tick now => sweep now st
  end.

Inductive reachable : State -> Prop :=
  | reachable_initial : reachable initial
  | reachable_step st e : reachable st -> reachable (step st e).

(** ** Notions used to state the properties *)

(** Does the character [c] occur in [s]? *)
Fixpoint occurs (c : ascii) (s : string) : bool :=
  match s with
  | EmptyString => false
  | String a r => Ascii.eqb a c || occurs c r
  end.

(** An entry: a non-empty text without the delimiter. *)
Definition entry (s : string) : Prop := truthy s = true /\ occurs star s = false.

(** The cumulative text that the gateway builds from the entries. *)
Fixpoint join (l : list string) : string :=
  match l with
  | [] => ""
  | [x] => x
  | x :: l' => x ++ String star (join l')
  end.

(** The guard of the [ENTER_FARM_SIZE] branch, line 215, negated. *)
Definition accepted (size : spec_float) : bool := negb (isNaN size || le_zero size).

(** "Parses as a positive finite decimal number", in the words of the
    specification: the value read by [parseFloat] is finite and positive. *)
Definition parses_positive_finite (latest : string) : bool :=
  let x := parseFloat latest in isFinite x && negb (isNaN x || le_zero x).

(** The request reaches the dispatch on the stage of the session: its text
    is not empty and it is not a selection of the main menu. *)
Definition reaches_stage_dispatch (r : Request) : Prop :=
  req_text r <> "" /\ inputLevel (req_text r) <> 1.

(** The fields of [farmerData] that the stages passed before [st] assign. *)
Definition populated (st : Stage) (d : FarmerData) : Prop :=
  match st with
  | MAIN_MENU | ENTER_NAME => True
  | SELECT_COUNTY | ENTER_CUSTOM_COUNTY => is_Some (name d)
  | SELECT_CROP | ENTER_CUSTOM_CROP => is_Some (name d) /\ is_Some (county d)
  | ENTER_FARM_SIZE => is_Some (name d) /\ is_Some (county d) /\ is_Some (crop d)
  | CONFIRM_REGISTRATION =>
      is_Some (name d) /\ is_Some (county d) /\ is_Some (crop d) /\ is_Some (farmSize d)
  end.

Definition complete (d : FarmerData) : Prop :=
  is_Some (name d) /\ is_Some (county d) /\ is_Some (crop d) /\ is_Some (farmSize d).

Definition session_ok (s : Session) : Prop := populated (stage s) (farmerData s).

Definition store_ok (st : State) : Prop :=
  forall sessionId s, sessionData st !! sessionId = Some s -> session_ok s.

(** The state in which the session under [sessionId] is gone. *)
Definition without (sessionId : string) (st : State) : State :=
  mkState (delete sessionId (sessionData st)) (farmerDatabase st).

(** A response of the protocol: it begins with [CON ] or with [END ]. *)
Definition directive (response : string) : bool :=
  startsWith "CON " response || startsWith "END " response.

(** The Number 3.5, that is [7881299347898368 * 2^(-51)]. *)
Definition three_and_a_half : spec_float := S754_finite false 7881299347898368 (-51).


(** The session that the handler works on, for a [regular] id: a new one
    for an unseen id, else the stored one with its activity recorded. *)
Definition touched (r : Request) (st : State) : Session :=
  match sessionData st !! req_sessionId r with
  | None => newSession (req_phoneNumber r) (req_now r) (req_created r)
  | Some s => set_lastActivity (req_now r) s
  end.

(** ** Dialogues *)

(** Requests served one after the other: the responses, in order, and the
    state left by the last one. *)
Fixpoint serve (st : State) (rs : list Request) : list string * State :=
  match rs with
  | [] => ([], st)
  | r :: rs' =>
      let '(response, st1) := handler r st in
      let '(out, st2) := serve st1 rs' in
      (response :: out, st2)
  end.

(** The requests of one dialogue: the one of index [i] carries its
    cumulative text and the clock readings of its own time. *)
Fixpoint dialogue_from (i : nat) (sessionId phone : string) (clock created : nat -> Z)
    (date : nat -> string) (texts : list string) : list Request :=
  match texts with
  | [] => []
  | text :: texts' =>
      mkRequest sessionId phone text (clock i) (created i) (date i)
      :: dialogue_from (S i) sessionId phone clock created date texts'
  end.

Definition dialogue := dialogue_from 0.

(** Scenario A of the specification. *)
Definition scenarioA : list string :=
  [ ""; "1"; "1*Jane Wanjiru"; "1*Jane Wanjiru*1"; "1*Jane Wanjiru*1*1";
    "1*Jane Wanjiru*1*1*3.5"; "1*Jane Wanjiru*1*1*3.5*1" ].

Definition jane : FarmerData :=
  mkFarmerData (Some "Jane Wanjiru") (Some "Nairobi") (Some "Maize") (Some three_and_a_half).

Definition confirmationA : string :=
  "CON Confirm your details:" ++ nl ++
  "Name: Jane Wanjiru" ++ nl ++
  "County: Nairobi" ++ nl ++
  "Crop: Maize" ++ nl ++
  "Farm: 3.5 acres" ++ nl ++ nl ++
  "1. Confirm & Register" ++ nl ++
  "2. Cancel".

Definition successA : string :=
  "END Registration successful!" ++ nl ++
  "Thank you Jane Wanjiru." ++ nl ++
  "You will receive SMS confirmation shortly." ++ nl ++
  "For assistance, call 0700000000".

(** A caller and the states of the service during the registration. *)
Definition caller : string := "+254712345678".

Definition call (text : string) (now : Z) : Request :=
  mkRequest "ATUid_1" caller text now now "15/08/2025, 21:30:00".

Definition at_farm_size : State :=
  foldl step initial
    [ Post (call "" 0); Post (call "1" 1000); Post (call "1*Jane Wanjiru" 2000);
      Post (call "1*Jane Wanjiru*1" 3000); Post (call "1*Jane Wanjiru*1*1" 4000) ].

Definition at_confirmation : State :=
  step at_farm_size (Post (call "1*Jane Wanjiru*1*1*3.5" 5000)).

(** The session of the caller at the farm-size prompt. *)
Definition farm_size_session : Session :=
  mkSession caller ENTER_FARM_SIZE
    (mkFarmerData (Some "Jane Wanjiru") (Some "Nairobi") (Some "Maize") None) 4000 0.

(** What the specification asks of a request to a session at
    [ENTER_FARM_SIZE]: it advances to the confirmation exactly when the
    latest entry parses as a positive finite number, and otherwise prompts
    again and keeps the session at its stage. *)
Definition advances_iff_positive_finite (r : Request) (st : State) : Prop :=
  let latest := currentInput (req_text r) in
  let out := handler r st in
  (parses_positive_finite latest = true <->
   stage <$> sessionData (snd out) !! req_sessionId r = Some CONFIRM_REGISTRATION) /\
  (parses_positive_finite latest = false ->
   fst out = farmSizeRetry /\
   stage <$> sessionData (snd out) !! req_sessionId r = Some ENTER_FARM_SIZE).

(** What the frame claim asks of a request to the stored session [s]: the
    session stays, and only its [lastActivity] may differ. *)
Definition only_activity_changes (r : Request) (st : State) (s : Session) : Prop :=
  exists s', sessionData (snd (handler r st)) !! req_sessionId r = Some s' /\
    phoneNumber s' = phoneNumber s /\ stage s' = stage s /\
    farmerData s' = farmerData s /\ createdAt s' = createdAt s.

(** A response object on which nothing was sent yet. *)
Definition pending : Response := mkResponse false None None.


(** A store with a session idle for ten minutes and one used a minute ago,
    seen at time [600000]. *)
Definition idle_session : Session := mkSession caller SELECT_CROP jane 0 0.
Definition fresh_session : Session := mkSession "+254700000001" ENTER_NAME jane 540000 530000.

Definition two_sessions : State :=
  store "ATUid_2" fresh_session (store "ATUid_1" idle_session initial).

(** ** Notions for the further properties *)

(** The moves of the dialogue: from stage [a] a request can leave the
    session at stage [b]. *)
Definition edge (a b : Stage) : bool :=
  match b with
  | MAIN_MENU | ENTER_NAME => true
  | SELECT_COUNTY => stage_eqb a ENTER_NAME
  | ENTER_CUSTOM_COUNTY => stage_eqb a SELECT_COUNTY
  | SELECT_CROP => stage_eqb a SELECT_COUNTY || stage_eqb a ENTER_CUSTOM_COUNTY
  | ENTER_CUSTOM_CROP => stage_eqb a SELECT_CROP
  | ENTER_FARM_SIZE =>
      stage_eqb a SELECT_CROP || stage_eqb a ENTER_CUSTOM_CROP || stage_eqb a ENTER_FARM_SIZE
  | CONFIRM_REGISTRATION => stage_eqb a ENTER_FARM_SIZE
  end.

(** How [farmerData] can differ after a request to a session at stage [a]:
    a field is as before, or it was assigned at the stage that asks for
    it. *)
Definition field_changes (a : Stage) (d d' : FarmerData) : Prop :=
  (name d' = name d \/ (a = ENTER_NAME /\ is_Some (name d'))) /\
  (county d' = county d \/
   ((a = SELECT_COUNTY \/ a = ENTER_CUSTOM_COUNTY) /\ is_Some (county d'))) /\
  (crop d' = crop d \/
   ((a = SELECT_CROP \/ a = ENTER_CUSTOM_CROP) /\ is_Some (crop d'))) /\
  (farmSize d' = farmSize d \/ (a = ENTER_FARM_SIZE /\ is_Some (farmSize d'))).

(** The session [s1] that a request leaves in place of [s0]. *)
Definition kept_as (s0 s1 : Session) : Prop :=
  phoneNumber s1 = phoneNumber s0 /\ createdAt s1 = createdAt s0 /\
  lastActivity s1 = lastActivity s0 /\
  edge (stage s0) (stage s1) = true /\
  field_changes (stage s0) (farmerData s0) (farmerData s1).

(** The level that the branch of a stage asks for, if it asks for one
    (lines 134, 148, 173). *)
Definition guarded_level (a : Stage) : option Z :=
  match a with
  | ENTER_NAME => Some 2
  | SELECT_COUNTY => Some 3
  | ENTER_CUSTOM_COUNTY => Some 4
  | _ => None
  end.

(** The request is out of step with the session: the stage is
    [MAIN_MENU], which has no branch of its own, or the stage asks for a
    level that the request does not have. *)
Definition out_of_step (a : Stage) (level : Z) : Prop :=
  a = MAIN_MENU \/ exists n, guarded_level a = Some n /\ level <> n.

(** The menus, as the lists that the prompts show. *)
Definition county_codes : list (string * string) :=
  [("1", "Nairobi"); ("2", "Kiambu"); ("3", "Machakos"); ("4", "Nakuru");
   ("5", "Meru"); ("6", "Kisumu"); ("7", "Mombasa")].

Definition crop_codes : list (string * string) :=
  [("1", "Maize"); ("2", "Wheat"); ("3", "Rice"); ("4", "Beans");
   ("5", "Potatoes"); ("6", "Tea"); ("7", "Coffee"); ("8", "Sugarcane")].

(** A session at the county menu, and one at the crop menu. *)
Definition county_session : Session :=
  mkSession caller SELECT_COUNTY (mkFarmerData (Some "Jane Wanjiru") None None None) 2000 0.

Definition crop_session : Session :=
  mkSession caller SELECT_CROP
    (mkFarmerData (Some "Jane Wanjiru") (Some "Nairobi") None None) 3000 0.

Definition at_county : State := store "ATUid_1" county_session initial.
Definition at_crop : State := store "ATUid_1" crop_session initial.

(** ** Timed runs and the health endpoint *)

(** The first and the last clock reading that an event carries.  A
    request that creates no session does not take the reading of line 63:
    any value from [req_now] on stands for it, [req_now] itself for
    one. *)
Definition event_start (e : Event) : Z :=
  match e with
  | Post r => req_now r
  | Tick now => now
  end.

Definition event_time (e : Event) : Z :=
  match e with
  | Post r => req_created r
  | Tick now => now
  end.

(** The states reached by events whose clock readings never decrease,
    with the last reading taken. *)
Inductive reachable_at : Z -> State -> Prop :=
  | at_initial t : reachable_at t initial
  | at_step t st e :
      reachable_at t st -> t <= event_start e -> event_start e <= event_time e ->
      reachable_at (event_time e) (step st e).

(** No time stamp of a stored session is later than [t]. *)
Definition timestamps_ok (t : Z) (st : State) : Prop :=
  forall sessionId s, sessionData st !! sessionId = Some s ->
    createdAt s <= t /\ lastActivity s <= t.

(** [GET /health] (lines 370-376): the body of the answer. *)
Record Health := mkHealth {
  status : string;
  registeredFarmers : nat;
  activeSessions : nat
}.

Definition health (st : State) : Health :=
  mkHealth "running" (size (farmerDatabase st)) (size (sessionData st)).

(** The Number [x] has the sign [sx], or is [NaN]. *)
Definition signed (sx : bool) (x : spec_float) : Prop :=
  match x with
  | S754_zero s | S754_infinity s | S754_finite s _ _ => s = sx
  | S754_nan => True
  end.

(** ** Complete dialogues *)

(** An answer to a menu that has an "Other" line: the code of a listed
    line, or the code of "Other" followed by a text of one's own. *)
Inductive Pick :=
  | Listed (code : string)
  | Typed (other : string).

(** The entries that the answer takes. *)
Definition pick_inputs (other_code : string) (p : Pick) : list string :=
  match p with
  | Listed code => [code]
  | Typed other => [other_code; other]
  end.

(** The answer [p] to the menu with the table [table] means [v]. *)
Definition pick_means (table : string -> option string) (p : Pick) (v : string) : Prop :=
  match p with
  | Listed code => table code = Some v
  | Typed other => entry other /\ v = other
  end.

(** The cumulative texts of a dialogue: the empty text of the first
    request, then one more entry with each request. *)
Fixpoint prefixes_from (sent inputs : list string) : list string :=
  match inputs with
  | [] => []
  | x :: rest => join (sent ++ [x]) :: prefixes_from (sent ++ [x]) rest
  end.

Definition cumulative (inputs : list string) : list string :=
  "" :: prefixes_from [] inputs.

(** The entries of a registration: option 1, the name, the county, the
    crop, the farm size, and the confirmation. *)
Definition registration_inputs (name : string) (county crop : Pick) (size : string)
  : list string :=
  (["1"; name] ++ pick_inputs "8" county ++ pick_inputs "9" crop ++ [size; "1"])%list.

(** The prompts that answer a pick: the next prompt, after the request for
    a text of one's own if "Other" was picked. *)
Definition pick_prompts (ask_other next : string) (p : Pick) : list string :=
  match p with
  | Listed _ => [next]
  | Typed _ => [ask_other; next]
  end.

(** ** The tester page (lines 558-690)

    The script of [GET /test].  Its state is the five variables of the
    script, the value of the text input and the text of the display; the
    other changes it makes to the page (labels, place holders, the
    visibility of the keypad) are never read back and are left out.
    [sendUSSD] is taken with its request answered by the handler: the
    [catch] branch of a failed [fetch] is not represented, and nothing
    happens between the request and its answer. *)

Module Tester.

Record Page := mkPage {
  sessionId : string;
  phoneNumber : string;
  textAccumulator : string;
  sessionActive : bool;
  waitingForText : bool;
  textInput : string;
  ussdDisplay : string
}.

(** [s.includes(p)] *)
Fixpoint includes (p s : string) : bool :=
  startsWith p s ||
  match s with
  | String _ r => includes p r
  | EmptyString => false
  end.

(** [s.replace(p, '')] for a non-empty text [p]: its first occurrence is
    taken out. *)
Fixpoint remove_first (p s : string) : string :=
  if startsWith p s then drop_bytes (String.length p) s
  else match s with
       | String c r => String c (remove_first p r)
       | EmptyString => EmptyString
       end.

(** [appendNumber(num)] *)
Definition appendNumber (num : string) (page : Page) : Page :=
  if sessionActive page && negb (waitingForText page)
  then mkPage (sessionId page) (phoneNumber page) (textAccumulator page)
         (sessionActive page) (waitingForText page) (textInput page ++ num)
         (ussdDisplay page)
  else page.

(** [clearInput()] *)
Definition clearInput (page : Page) : Page :=
  mkPage (sessionId page) (phoneNumber page) (textAccumulator page)
    (sessionActive page) (waitingForText page) "" (ussdDisplay page).

(** [displayResponse(response)] *)
Definition displayResponse (response : string) (page : Page) : Page :=
  let displayText :=
    if startsWith "CON " response then drop_bytes 4 response
    else if startsWith "END " response then drop_bytes 4 response
    else response in
  mkPage (sessionId page) (phoneNumber page) (textAccumulator page)
    (sessionActive page) (waitingForText page) (textInput page) displayText.

(** [endSession()] *)
Definition endSession (page : Page) : Page :=
  mkPage "" (phoneNumber page) "" false false "" (ussdDisplay page).

(** Lines 585-603 of [sendUSSD]: a new session is started with the id
    [fresh] that [generateSessionId] made, or the typed input is added to
    the text. *)
Definition prepare (fresh : string) (page : Page) : Page :=
  let input := textInput page in
  if negb (sessionActive page) then
    mkPage fresh (phoneNumber page) "" true (waitingForText page) input (ussdDisplay page)
  else if truthy input then
    mkPage (sessionId page) (phoneNumber page)
      (if truthy (textAccumulator page)
       then textAccumulator page ++ "*" ++ input else input)
      (sessionActive page) (waitingForText page) input (ussdDisplay page)
  else page.

(** Lines 618-642: what the page does with the answer [data]. *)
Definition receive (data : string) (page : Page) : Page :=
  let shown := clearInput (displayResponse data page) in
  if startsWith "END" data then endSession shown
  else
    let displayText := remove_first "CON " data in
    mkPage (sessionId shown) (phoneNumber shown) (textAccumulator shown)
      (sessionActive shown)
      (includes "enter" displayText || includes "Enter" displayText
       || includes "type" displayText || includes "Type" displayText)
      (textInput shown) (ussdDisplay shown).

(** The request that the page sends, with the readings that the server
    takes for it. *)
Definition request (now created : Z) (date : string) (page : Page) : Request :=
  mkRequest (sessionId page) (phoneNumber page) (textAccumulator page) now created date.

(** [sendUSSD()], with the server. *)
Definition sendUSSD (fresh : string) (now created : Z) (date : string) (page : Page)
    (server : State) : Page * State :=
  let page1 := prepare fresh page in
  let '(data, server') := handler (request now created date page1) server in
  (receive data page1, server').

End Tester.

(** ** Invariants of the collected sizes and of the registry *)

(** Every farm size held is one that the guard accepted. *)
Definition size_ok (d : FarmerData) : Prop :=
  forall x, farmSize d = Some x -> accepted x = true.

Definition sizes_ok (st : State) : Prop :=
  forall sessionId s, sessionData st !! sessionId = Some s -> size_ok (farmerData s).

(** A registry entry is filed under its own phone number, has every field
    and an accepted farm size. *)
Definition farmer_ok (phone : string) (f : Farmer) : Prop :=
  farmer_phoneNumber f = phone /\ complete (farmer_data f) /\ size_ok (farmer_data f).

Definition registry_ok (st : State) : Prop :=
  forall phone f, farmerDatabase st !! phone = Some f -> farmer_ok phone f.

(** A request for the session [sessionId] whose latest entry the farm-size
    guard refuses. *)
Definition refused_size (sessionId : string) (r : Request) : Prop :=
  req_sessionId r = sessionId /\ reaches_stage_dispatch r /\
  accepted (parseFloat (currentInput (req_text r))) = false.

(** ** Driving the server from the tester page *)

(** The user types [input] in the text input and presses Send. *)
Definition type_and_send (fresh : string) (now created : Z) (date : string) (input : string)
    (ps : Tester.Page * State) : Tester.Page * State :=
  Tester.sendUSSD fresh now created date
    (Tester.mkPage (Tester.sessionId (fst ps)) (Tester.phoneNumber (fst ps))
       (Tester.textAccumulator (fst ps)) (Tester.sessionActive (fst ps))
       (Tester.waitingForText (fst ps)) input (Tester.ussdDisplay (fst ps)))
    (snd ps).

(** The inputs typed and sent one after the other, the one of index [i]
    first. *)
Fixpoint tester_run (i : nat) (fresh : string) (clock created : nat -> Z)
    (date : nat -> string) (inputs : list string) (ps : Tester.Page * State)
  : Tester.Page * State :=
  match inputs with
  | [] => ps
  | input :: rest =>
      tester_run (S i) fresh clock created date rest
        (type_and_send fresh (clock i) (created i) (date i) input ps)
  end.

(** The caller at the name prompt, and the tester page at that point. *)
Definition at_name : State :=
  foldl step initial [Post (call "" 0); Post (call "1" 1000)].

Definition page_at_name : Tester.Page :=
  Tester.mkPage "ATUid_1" caller "1" true true "" "".

(** ** Basic facts about the decoder *)

Lemma split_nonempty d s : split d s <> [].
Proof. destruct s as [|c r]; simpl; [done|]. destruct (Ascii.eqb c d); [done|]. by destruct (split d r). Qed.

Lemma split_app d a b : split d (a ++ String d b) = (split d a ++ split d b)%list.
Proof.
  induction a as [|c a IH]; simpl.
  - by rewrite Ascii.eqb_refl.
  - destruct (Ascii.eqb c d); [by rewrite IH|].
    rewrite IH. destruct (split d a) as [|seg segs] eqn:E; [|done].
    by apply split_nonempty in E.
Qed.

Lemma split_free d s : occurs d s = false -> split d s = [s].
Proof.
  induction s as [|c r IH]; simpl; [done|]. intros H.
  apply orb_false_elim in H as [-> H]. by rewrite (IH H).
Qed.

Lemma split_segments_free d s seg : In seg (split d s) -> occurs d seg = false.
Proof.
  revert seg. induction s as [|c r IH]; simpl; intros seg.
  - by intros [<-|[]].
  - destruct (Ascii.eqb c d) eqn:E.
    + intros [<-|H]; [done|by apply IH].
    + destruct (split d r) as [|seg0 segs] eqn:E'.
      * intros [<-|[]]. simpl. by rewrite E.
      * intros [<-|H]; simpl.
        -- rewrite E. apply IH. by left.
        -- apply IH. by right.
Qed.

Lemma userInputs_empty : userInputs "" = [].
Proof. reflexivity. Qed.

Lemma userInputs_entry s : entry s -> userInputs s = [s].
Proof. intros [Ht Hf]. unfold userInputs. rewrite (split_free _ _ Hf). simpl. by rewrite Ht. Qed.

Lemma userInputs_app a b :
  userInputs (a ++ String star b) = (userInputs a ++ userInputs b)%list.
Proof. unfold userInputs. by rewrite split_app, List.filter_app. Qed.

Lemma userInputs_entries text s : In s (userInputs text) -> entry s.
Proof.
  unfold userInputs. intros H. apply List.filter_In in H as [H Ht].
  split; [done|]. by apply (split_segments_free star text).
Qed.

Lemma userInputs_join l : Forall entry l -> userInputs (join l) = l.
Proof.
  induction 1 as [|x l Hx Hl IH]; [done|].
  destruct l as [|y l]; [by apply userInputs_entry|].
  change (join (x :: y :: l)) with (x ++ String star (join (y :: l))).
  by rewrite userInputs_app, IH, (userInputs_entry x Hx).
Qed.

Lemma currentInput_last text : currentInput text = default "" (last (userInputs text)).
Proof.
  unfold currentInput, index.
  pose proof (userInputs_entries text) as Hall.
  destruct (userInputs text) as [|x l] eqn:E using rev_ind; [done|].
  rewrite last_snoc, length_app. simpl.
  destruct (Z.ltb_spec (Z.of_nat (length l + 1) - 1) 0) as [Hneg|_]; [lia|].
  replace (Z.to_nat _) with (length l) by lia.
  rewrite list_lookup_middle by done. simpl.
  destruct (Hall x) as [-> _]; [|done]. apply in_or_app. right. by left.
Qed.

(** C6. Decoding is a total function of the cumulative text.  The empty
    text gives no entry, latest [""] and level 0; ["1*John*2"] gives the
    entries ["1"], ["John"], ["2"], latest ["2"] and level 3; ["**"] gives
    level 0.  In general every entry is a non-empty text without ['*'],
    the latest is the last entry ([""] when there is none), the level is
    the number of entries, and the entries are exactly the texts that were
    joined with ['*']: decoding the join of entries gives them back in
    order, and a delimiter splits the decoding of the two sides. *)
Theorem decode_entries :
  (userInputs "" = [] /\ currentInput "" = "" /\ inputLevel "" = 0) /\
  (userInputs "1*John*2" = ["1"; "John"; "2"] /\
   currentInput "1*John*2" = "2" /\ inputLevel "1*John*2" = 3) /\
  (userInputs "**" = [] /\ currentInput "**" = "" /\ inputLevel "**" = 0) /\
  (forall text,
     Forall entry (userInputs text) /\
     currentInput text = default "" (last (userInputs text)) /\
     inputLevel text = Z.of_nat (length (userInputs text))) /\
  (forall l, Forall entry l -> userInputs (join l) = l) /\
  (forall a b, userInputs (a ++ String star b) = (userInputs a ++ userInputs b)%list).
Proof.
  repeat split; try reflexivity.
  - apply List.Forall_forall, userInputs_entries.
  - apply currentInput_last.
  - apply userInputs_join.
  - apply userInputs_app.
Qed.

Lemma decode_entries_witness :
  Forall entry ["1"; "Jane Wanjiru"; "8"] /\
  userInputs (join ["1"; "Jane Wanjiru"; "8"]) = ["1"; "Jane Wanjiru"; "8"].
Proof.
  assert (H : Forall entry ["1"; "Jane Wanjiru"; "8"]) by (repeat constructor).
  split; [exact H|].
  exact (proj1 (proj2 (proj2 (proj2 (proj2 decode_entries)))) _ H).
Defined.

(** ** The session store *)

Lemma assign_store sessionId f s st :
  assign sessionId f (store sessionId s st) = store sessionId (f s) st.
Proof. unfold assign, store. simpl. f_equal. apply alter_insert_eq. Qed.

Lemma assign_present sessionId f s st :
  sessionData st !! sessionId = Some s ->
  assign sessionId f st = store sessionId (f s) st.
Proof.
  intros H. unfold assign, store. f_equal.
  rewrite <- (insert_id _ _ _ H) at 1. apply alter_insert_eq.
Qed.

Lemma cleanup_store sessionId s st :
  cleanupSession sessionId (store sessionId s st) = without sessionId st.
Proof.
  unfold cleanupSession, store, without. simpl.
  rewrite lookup_insert_eq. f_equal. apply delete_insert_eq.
Qed.

Lemma register_store phone f sessionId s st :
  register phone f (store sessionId s st) = store sessionId s (register phone f st).
Proof. reflexivity. Qed.

Lemma cleanup_absent sessionId st :
  sessionData st !! sessionId = None -> cleanupSession sessionId st = st.
Proof. intros H. unfold cleanupSession. by rewrite H. Qed.

Lemma cleanup_without sessionId st : cleanupSession sessionId st = without sessionId st.
Proof.
  unfold cleanupSession, without. destruct (sessionData st !! sessionId) eqn:E; [done|].
  destruct st as [ss fs]. simpl in *. f_equal. symmetry. by apply delete_id.
Qed.

Lemma touch_store r st : touch r st = store (req_sessionId r) (touched r st) st.
Proof.
  unfold touch, touched. destruct (sessionData st !! req_sessionId r) eqn:E; [|done].
  by apply assign_present.
Qed.

(** C8. Deleting a session twice leaves the store as deleting it once:
    the second [cleanupSession] changes nothing, whether the session was
    stored or not; the call is defined for every id and state, removes
    that id only, and never touches the registry. *)
Theorem cleanupSession_idempotent sessionId st :
  cleanupSession sessionId (cleanupSession sessionId st) = cleanupSession sessionId st /\
  sessionData (cleanupSession sessionId st) !! sessionId = None /\
  (forall other, other <> sessionId ->
     sessionData (cleanupSession sessionId st) !! other = sessionData st !! other) /\
  farmerDatabase (cleanupSession sessionId st) = farmerDatabase st.
Proof.
  assert (Hgone : sessionData (cleanupSession sessionId st) !! sessionId = None).
  { rewrite cleanup_without. apply lookup_delete_eq. }
  repeat split.
  - by apply cleanup_absent.
  - done.
  - intros other Hne. rewrite cleanup_without. by apply lookup_delete_ne.
  - by rewrite cleanup_without.
Qed.

(** ** The sweeper *)

Lemma sweep_key_lookup now m k j :
  sweep_key now m k !! j =
  match m !! j with
  | Some s => if decide (k = j) then (if expired now s then None else Some s) else Some s
  | None => None
  end.
Proof.
  unfold sweep_key. destruct (decide (k = j)) as [->|Hne].
  - destruct (m !! j) as [s|] eqn:E; [|by rewrite E].
    destruct (expired now s); [apply lookup_delete_eq|done].
  - destruct (m !! k) as [s|] eqn:E.
    + destruct (expired now s); [rewrite lookup_delete_ne by done|]; by destruct (m !! j).
    + by destruct (m !! j).
Qed.

Lemma sweep_keys_lookup now ks : forall m j,
  foldl (sweep_key now) m ks !! j =
  match m !! j with
  | Some s => if decide (j ∈ ks) then (if expired now s then None else Some s) else Some s
  | None => None
  end.
Proof.
  induction ks as [|k ks IH]; intros m j.
  - change (foldl (sweep_key now) m []) with m. destruct (m !! j); [|done].
    case_decide; [set_solver|done].
  - change (foldl (sweep_key now) m (k :: ks)) with (foldl (sweep_key now) (sweep_key now m k) ks).
    rewrite IH, sweep_key_lookup. destruct (m !! j) as [s|]; [|done].
    destruct (elem_of_cons ks j k) as [Hcons1 Hcons2].
    destruct (expired now s) eqn:E;
      destruct (decide (k = j)) as [Hkj|Hkj]; destruct (decide (j ∈ ks)) as [Hks|Hks];
      destruct (decide (j ∈ k :: ks)) as [Hin|Hin]; rewrite ?E; simpl; rewrite ?E;
      try done; exfalso;
      first [ apply Hin, Hcons2; left; congruence
            | apply Hin, Hcons2; right; assumption
            | destruct (Hcons1 Hin); congruence ].
Qed.

Lemma sweep_lookup now st j :
  sessionData (sweep now st) !! j =
  match sessionData st !! j with
  | Some s => if expired now s then None else Some s
  | None => None
  end.
Proof.
  unfold sweep. simpl. rewrite sweep_keys_lookup.
  destruct (sessionData st !! j) as [s|] eqn:E; [|done].
  rewrite decide_True; [done|].
  apply list_elem_of_fmap. exists (j, s). split; [done|]. by apply elem_of_map_to_list.
Qed.

(** C7. After one tick of the sweeper at time [now], a session idle for
    more than [SESSION_TIMEOUT] (5 minutes) is no longer stored, a session
    whose last activity is within the timeout is stored unchanged, and the
    tick stores nothing new and leaves the registry as it was. *)
Theorem sweep_expiry now st sessionId s :
  sessionData st !! sessionId = Some s ->
  (now - lastActivity s > SESSION_TIMEOUT ->
     sessionData (sweep now st) !! sessionId = None) /\
  (now - lastActivity s <= SESSION_TIMEOUT ->
     sessionData (sweep now st) !! sessionId = Some s) /\
  (forall other s', sessionData (sweep now st) !! other = Some s' ->
     sessionData st !! other = Some s' /\ now - lastActivity s' <= SESSION_TIMEOUT) /\
  farmerDatabase (sweep now st) = farmerDatabase st /\
  SESSION_TIMEOUT = 300000.
Proof.
  intros H. split; [|split; [|split; [|done]]].
  - intros Hold. rewrite sweep_lookup, H. unfold expired.
    destruct (Z.ltb_spec SESSION_TIMEOUT (now - lastActivity s)); [done|lia].
  - intros Hnew. rewrite sweep_lookup, H. unfold expired.
    destruct (Z.ltb_spec SESSION_TIMEOUT (now - lastActivity s)); [lia|done].
  - intros other s'. rewrite sweep_lookup.
    destruct (sessionData st !! other) as [s0|]; [|done]. unfold expired.
    destruct (Z.ltb_spec SESSION_TIMEOUT (now - lastActivity s0)); [done|].
    intros [= <-]. split; [done|lia].
Qed.

Lemma sweep_expiry_witness :
  sessionData (sweep 600000 two_sessions) !! "ATUid_1" = None /\
  sessionData (sweep 600000 two_sessions) !! "ATUid_2" = Some fresh_session.
Proof.
  split.
  - apply (proj1 (sweep_expiry 600000 two_sessions "ATUid_1" idle_session
                    ltac:(vm_compute; reflexivity))).
    vm_compute; reflexivity.
  - apply (proj1 (proj2 (sweep_expiry 600000 two_sessions "ATUid_2" fresh_session
                           ltac:(vm_compute; reflexivity)))).
    vm_compute; discriminate.
Defined.

(** ** The handler, step by step *)

Lemma store_store sessionId s s' st :
  store sessionId s (store sessionId s' st) = store sessionId s st.
Proof. unfold store. simpl. f_equal. apply insert_insert_eq. Qed.

Lemma touched_store sessionId phone text now created date s st :
  touched (mkRequest sessionId phone text now created date) (store sessionId s st)
  = set_lastActivity now s.
Proof. unfold touched, store. simpl. by rewrite lookup_insert_eq. Qed.

Lemma directive_head response :
  directive response = true ->
  exists rest, response = String "C" rest \/ response = String "E" rest.
Proof.
  unfold directive. destruct response as [|c rest]; [done|].
  change (startsWith "CON " (String c rest))
    with (Ascii.eqb "C" c && startsWith "ON " rest).
  change (startsWith "END " (String c rest))
    with (Ascii.eqb "E" c && startsWith "ND " rest).
  intros [H|H]%orb_prop; apply andb_prop in H as [H _]; apply Ascii.eqb_eq in H;
    subst; eauto.
Qed.

Lemma ensureResponse_directive sessionId response st :
  directive response = true ->
  ensureResponse sessionId (response, st) = (response, st).
Proof. intros [rest [-> | ->]]%directive_head; reflexivity. Qed.

Lemma ensureResponse_blank sessionId response st :
  response = "" \/ trim response = "" ->
  ensureResponse sessionId (response, st) = (systemError, cleanupSession sessionId st).
Proof.
  intros [-> | H]; [done|]. unfold ensureResponse. rewrite H. simpl.
  by rewrite orb_true_r.
Qed.

Lemma flow_directive r session st : directive (fst (flow r session st)) = true.
Proof. unfold flow. repeat case_match; reflexivity. Qed.

Lemma handler_flow r st :
  handler r st =
  flow r (touched r st) (store (req_sessionId r) (touched r st) st).
Proof.
  unfold handler. rewrite touch_store. unfold store at 1. simpl.
  rewrite lookup_insert_eq.
  destruct (flow r (touched r st) (store (req_sessionId r) (touched r st) st))
    as [response st'] eqn:E.
  apply ensureResponse_directive.
  change response with (fst (response, st')). rewrite <- E. apply flow_directive.
Qed.

(** X27. A request whose session id is stored, or names no inherited
    property, gets one response: a [text/plain] body that is not empty and
    begins with [CON ] or [END ].  Were the computed text empty (or
    blank), the guard would put the terminal system-error text in its
    place and delete the session. *)
Theorem response_is_directive r res st :
  regular (req_sessionId r) st ->
  fst (post_ussd r res st)
  = mkResponse true (Some "text/plain") (Some (fst (handler r st))) /\
  snd (post_ussd r res st) = snd (handler r st) /\
  fst (handler r st) <> "" /\
  (startsWith "CON " (fst (handler r st)) = true \/
   startsWith "END " (fst (handler r st)) = true) /\
  (forall sessionId response st',
     response = "" \/ trim response = "" ->
     ensureResponse sessionId (response, st') = (systemError, cleanupSession sessionId st') /\
     startsWith "END " systemError = true /\
     sessionData (cleanupSession sessionId st') !! sessionId = None).
Proof.
  intros _.
  assert (H : directive (fst (handler r st)) = true)
    by (rewrite handler_flow; apply flow_directive).
  unfold post_ussd. destruct (handler r st) as [response st1]. simpl in *.
  do 2 (split; [reflexivity|]). split; [|split].
  - destruct (directive_head _ H) as [rest [-> | ->]]; done.
  - by apply orb_prop.
  - intros sessionId response' st' Hblank. split; [by apply ensureResponse_blank|].
    split; [done|]. rewrite cleanup_without. apply lookup_delete_eq.
Qed.

Lemma response_is_directive_witness :
  fst (post_ussd (call "" 0) pending initial)
  = mkResponse true (Some "text/plain") (Some generateMainMenu).
Proof.
  refine (proj1 (response_is_directive (call "" 0) pending initial _)).
  right. reflexivity.
Defined.

Lemma level_one_text text : inputLevel text = 1 -> String.eqb text "" = false.
Proof. intros H. destruct (String.eqb_spec text ""); [by subst|done]. Qed.

Lemma not_empty_text text : text <> "" -> String.eqb text "" = false.
Proof. intros H. by destruct (String.eqb_spec text ""). Qed.

(** C9. For a stored session, whatever its stage, a request whose text
    decodes to exactly one entry is a selection of the main menu: ["1"]
    records the activity, moves the session to [ENTER_NAME] and prompts for
    the name; ["2"] looks the caller up in the registry, ends the dialogue
    and deletes the session, leaving the registry as it is: the answer
    gives the details of the entry stored under the phone number, and for
    a phone number that is not stored and names no inherited property it
    says that the caller is not registered; ["3"] says goodbye and deletes
    the session; any other entry answers "invalid option" and deletes
    it. *)
Theorem main_menu_selection r st s :
  sessionData st !! req_sessionId r = Some s ->
  inputLevel (req_text r) = 1 ->
  req_text r <> "" /\
  (currentInput (req_text r) = "1" ->
     handler r st =
     (namePrompt,
      store (req_sessionId r) (set_stage ENTER_NAME (set_lastActivity (req_now r) s)) st)) /\
  (currentInput (req_text r) = "2" ->
     snd (handler r st) = without (req_sessionId r) st /\
     startsWith "END " (fst (handler r st)) = true /\
     (forall farmer, farmerDatabase st !! req_phoneNumber r = Some farmer ->
        fst (handler r st) = registrationDetails farmer) /\
     (farmerDatabase st !! req_phoneNumber r = None ->
      plain_phone (req_phoneNumber r) = true ->
        fst (handler r st) = notRegistered)) /\
  (currentInput (req_text r) = "3" ->
     handler r st = (goodbye, without (req_sessionId r) st)) /\
  (currentInput (req_text r) <> "1" -> currentInput (req_text r) <> "2" ->
   currentInput (req_text r) <> "3" ->
     handler r st = (invalidOption, without (req_sessionId r) st)).
Proof.
  intros Hs Hlevel.
  assert (Ht := level_one_text _ Hlevel).
  split; [by intros E; rewrite E in Hlevel|].
  rewrite handler_flow. unfold touched. rewrite Hs. unfold flow.
  rewrite Ht, Hlevel. change (1 =? 1) with true. cbv iota.
  split; [|split; [|split]].
  - intros ->. simpl. by rewrite assign_store.
  - intros ->. simpl. rewrite cleanup_store.
    destruct (farmerDatabase st !! req_phoneNumber r) as [farmer|];
      repeat split; try done; by intros farmer' [= <-].
  - intros ->. simpl. by rewrite cleanup_store.
  - intros H1 H2 H3.
    destruct (String.eqb_spec (currentInput (req_text r)) "1"); [done|].
    destruct (String.eqb_spec (currentInput (req_text r)) "2"); [done|].
    destruct (String.eqb_spec (currentInput (req_text r)) "3"); [done|].
    by rewrite cleanup_store.
Qed.

Lemma main_menu_selection_witness :
  handler (call "1" 9000) at_confirmation =
  (namePrompt,
   store "ATUid_1"
     (set_stage ENTER_NAME
        (set_lastActivity 9000 (mkSession caller CONFIRM_REGISTRATION jane 5000 0)))
     at_confirmation).
Proof.
  refine (proj1 (proj2 (main_menu_selection (call "1" 9000) at_confirmation
            (mkSession caller CONFIRM_REGISTRATION jane 5000 0) _ _)) _);
    vm_compute; reflexivity.
Defined.

(** The guard of the farm-size branch lets through exactly plus infinity
    and the positive finite Numbers. *)
Lemma accepted_iff size :
  accepted size = true <->
  size = S754_infinity false \/ exists m e, size = S754_finite false m e.
Proof.
  unfold accepted, isNaN, le_zero, SFleb.
  destruct size as [[]|[]| |[] m e]; simpl; split; try done; eauto;
    intros [H|(m' & e' & H)]; done.
Qed.

(** What the guard makes of some entries: the examples of the prompt pass,
    as do a number followed by other text and ["Infinity"]; zero, negative
    numbers, text without a leading number and a decimal too small for a
    Number do not. *)
Example accepted_entries :
  List.map (fun latest => accepted (parseFloat latest))
    ["2.5"; "10"; " 7"; "3.5abc"; "1e3"; "Infinity"; "0"; "-1"; "abc"; "1e-400"; "-Infinity"]
  = [true; true; true; true; true; true; false; false; false; false; false].
Proof. vm_compute. reflexivity. Qed.

Example shown_numbers :
  List.map (fun latest => number_to_string (parseFloat latest))
    ["2.5"; "10"; "3.5abc"; "1e3"; "0.1"; "1e21"; "Infinity"; "007"; ".5"]
  = ["2.5"; "10"; "3.5"; "1000"; "0.1"; "1e+21"; "Infinity"; "7"; "0.5"].
Proof. vm_compute. reflexivity. Qed.

Lemma farm_size_flow r st s :
  sessionData st !! req_sessionId r = Some s ->
  stage s = ENTER_FARM_SIZE ->
  reaches_stage_dispatch r ->
  handler r st =
  let size := parseFloat (currentInput (req_text r)) in
  let s0 := set_lastActivity (req_now r) s in
  if accepted size
  then (generateConfirmation (set_farmSize size (farmerData s)),
        store (req_sessionId r)
          (set_stage CONFIRM_REGISTRATION (set_farmerData (set_farmSize size) s0)) st)
  else (farmSizeRetry, store (req_sessionId r) s0 st).
Proof.
  intros Hs Hstage [Ht Hlevel].
  rewrite handler_flow. unfold touched. rewrite Hs. unfold flow.
  rewrite (not_empty_text _ Ht). apply Z.eqb_neq in Hlevel. rewrite Hlevel.
  simpl stage. rewrite Hstage. cbn [stage_eqb andb]. cbv zeta. unfold accepted.
  destruct (isNaN _ || le_zero _); cbn [negb]; [done|].
  by rewrite !assign_store.
Qed.

Lemma accepted_finite latest :
  parseFloat latest <> S754_infinity false ->
  accepted (parseFloat latest) = parses_positive_finite latest.
Proof.
  unfold parses_positive_finite, accepted. intros Hinf.
  destruct (parseFloat latest) as [[]|[]| |[] m e]; done.
Qed.

(** C2, as the code has it by design.  For a stored session at
    [ENTER_FARM_SIZE] and a request that reaches the dispatch on the stage
    (text not empty, input level other than 1) whose latest entry
    [parseFloat] does not read as plus infinity: the session moves to
    [CONFIRM_REGISTRATION], with [farmerData.farmSize] stored and the
    confirmation screen as response, if and only if the latest entry
    parses as a positive finite Number; otherwise ([NaN], or a Number
    [<= 0]) the response is the farm-size prompt with its error note, the
    stage stays [ENTER_FARM_SIZE] and the session stays in the store. *)
Theorem farm_size_transition r st s :
  sessionData st !! req_sessionId r = Some s ->
  stage s = ENTER_FARM_SIZE ->
  reaches_stage_dispatch r ->
  parseFloat (currentInput (req_text r)) <> S754_infinity false ->
  let latest := currentInput (req_text r) in
  let size := parseFloat latest in
  let s0 := set_lastActivity (req_now r) s in
  (parses_positive_finite latest = true ->
     handler r st =
     (generateConfirmation (set_farmSize size (farmerData s)),
      store (req_sessionId r)
        (set_stage CONFIRM_REGISTRATION (set_farmerData (set_farmSize size) s0)) st)) /\
  (parses_positive_finite latest = false ->
     handler r st = (farmSizeRetry, store (req_sessionId r) s0 st) /\
     sessionData (snd (handler r st)) !! req_sessionId r = Some s0 /\
     stage s0 = ENTER_FARM_SIZE) /\
  (parses_positive_finite latest = true <->
     stage <$> sessionData (snd (handler r st)) !! req_sessionId r
     = Some CONFIRM_REGISTRATION).
Proof.
  intros Hs Hstage Hreach Hinf latest size s0.
  pose proof (farm_size_flow r st s Hs Hstage Hreach) as H. cbv zeta in H.
  fold latest in H. fold size in H. fold s0 in H.
  rewrite <- (accepted_finite latest Hinf). fold size.
  split; [|split].
  - intros E. by rewrite H, E.
  - intros E. rewrite H, E. split; [done|]. split; [|done].
    unfold store. simpl. apply lookup_insert_eq.
  - rewrite H. destruct (accepted size); unfold store; simpl;
      rewrite lookup_insert_eq; simpl; [done|]. rewrite Hstage. split; done.
Qed.

Lemma farm_size_transition_witness :
  handler (call "1*Jane Wanjiru*1*1*3.5" 5000) at_farm_size =
  (confirmationA,
   store "ATUid_1" (mkSession caller CONFIRM_REGISTRATION jane 5000 0) at_farm_size).
Proof.
  refine (proj1 (farm_size_transition (call "1*Jane Wanjiru*1*1*3.5" 5000) at_farm_size
            farm_size_session _ _ _ _) _).
  - vm_compute; reflexivity.
  - reflexivity.
  - split; vm_compute; discriminate.
  - vm_compute; discriminate.
  - vm_compute; reflexivity.
Defined.

(** C2 as the specification states it fails.  With the only entry ["7"],
    which parses as a positive finite number, the request to the session
    at [ENTER_FARM_SIZE] is a selection of the main menu: the session does
    not advance, it is deleted. *)
Lemma farm_size_selection_first :
  sessionData at_farm_size !! "ATUid_1" = Some farm_size_session /\
  stage farm_size_session = ENTER_FARM_SIZE /\
  parses_positive_finite (currentInput (req_text (call "7" 5000))) = true /\
  ~ advances_iff_positive_finite (call "7" 5000) at_farm_size.
Proof.
  split; [vm_compute; reflexivity|]. split; [reflexivity|].
  split; [vm_compute; reflexivity|].
  - intros [[H _] _].
    assert (E : stage <$> sessionData (snd (handler (call "7" 5000) at_farm_size))
                  !! req_sessionId (call "7" 5000) = None)
      by (vm_compute; reflexivity).
    rewrite H in E; [discriminate|]. vm_compute; reflexivity.
Qed.

(** C10, as the code has it.  For a stored session at [ENTER_FARM_SIZE]
    and a request that reaches the dispatch on the stage whose latest
    entry is refused ([parseFloat] gives [NaN] or a Number [<= 0]), the
    handler changes nothing but the [lastActivity] of that session: its
    phone number, stage, every field of [farmerData] and [createdAt] are
    as before, every other session is as before, and so is the
    registry. *)
Theorem farm_size_retry_frame r st s :
  sessionData st !! req_sessionId r = Some s ->
  stage s = ENTER_FARM_SIZE ->
  reaches_stage_dispatch r ->
  accepted (parseFloat (currentInput (req_text r))) = false ->
  exists s',
    sessionData (snd (handler r st)) !! req_sessionId r = Some s' /\
    lastActivity s' = req_now r /\
    phoneNumber s' = phoneNumber s /\ stage s' = stage s /\
    name (farmerData s') = name (farmerData s) /\
    county (farmerData s') = county (farmerData s) /\
    crop (farmerData s') = crop (farmerData s) /\
    farmSize (farmerData s') = farmSize (farmerData s) /\
    createdAt s' = createdAt s /\
    (forall other, other <> req_sessionId r ->
       sessionData (snd (handler r st)) !! other = sessionData st !! other) /\
    farmerDatabase (snd (handler r st)) = farmerDatabase st.
Proof.
  intros Hs Hstage Hreach Hno.
  rewrite (farm_size_flow r st s Hs Hstage Hreach). cbv zeta. rewrite Hno.
  exists (set_lastActivity (req_now r) s). unfold store. simpl.
  rewrite lookup_insert_eq. repeat split.
  intros other Hne. by rewrite lookup_insert_ne.
Qed.

Lemma farm_size_retry_frame_witness :
  exists s',
    sessionData (snd (handler (call "1*Jane Wanjiru*1*1*abc" 5000) at_farm_size))
      !! "ATUid_1" = Some s' /\
    lastActivity s' = 5000 /\ stage s' = ENTER_FARM_SIZE /\
    farmerData s' = farmerData farm_size_session.
Proof.
  destruct (farm_size_retry_frame (call "1*Jane Wanjiru*1*1*abc" 5000) at_farm_size
              farm_size_session) as (s' & H1 & H2 & _ & H3 & H4 & H5 & H6 & H7 & _).
  - vm_compute; reflexivity.
  - reflexivity.
  - split; vm_compute; discriminate.
  - vm_compute; reflexivity.
  - exists s'. repeat split; try assumption.
    destruct s' as [p g [n c k f] l a]. simpl in H4, H5, H6, H7. by subst.
Defined.

(** C10 as written fails for the requests that are served before the
    stage is looked at: a session at [ENTER_FARM_SIZE] that receives the
    single entry ["abc"], which does not parse as a number, is deleted, and
    one that receives the empty text is put back to [MAIN_MENU]. *)
Lemma farm_size_frame_broken :
  sessionData at_farm_size !! "ATUid_1" = Some farm_size_session /\
  stage farm_size_session = ENTER_FARM_SIZE /\
  accepted (parseFloat (currentInput "abc")) = false /\
  accepted (parseFloat (currentInput "")) = false /\
  ~ only_activity_changes (call "abc" 5000) at_farm_size farm_size_session /\
  ~ only_activity_changes (call "" 5000) at_farm_size farm_size_session.
Proof.
  split; [vm_compute; reflexivity|]. do 3 (split; [reflexivity|]). split.
  - intros (s' & H & _).
    assert (E : sessionData (snd (handler (call "abc" 5000) at_farm_size))
                  !! req_sessionId (call "abc" 5000) = None) by (vm_compute; reflexivity).
    rewrite E in H. discriminate H.
  - intros (s' & H & _ & Hstage & _).
    assert (E : sessionData (snd (handler (call "" 5000) at_farm_size))
                  !! req_sessionId (call "" 5000)
                = Some (mkSession caller MAIN_MENU (farmerData farm_size_session) 5000 0))
      by (vm_compute; reflexivity).
    rewrite E in H. injection H as <-. discriminate Hstage.
Qed.

(** ** The invariant of the store *)

Lemma flow_outcome r s0 st :
  session_ok s0 ->
  (exists s1,
     sessionData (snd (flow r s0 (store (req_sessionId r) s0 st)))
     = <[req_sessionId r := s1]> (sessionData st) /\ session_ok s1) \/
  sessionData (snd (flow r s0 (store (req_sessionId r) s0 st)))
  = delete (req_sessionId r) (sessionData st).
Proof.
  intros Hok. destruct s0 as [p stg d la ca]. unfold session_ok in Hok. simpl in Hok.
  unfold flow. simpl stage.
  destruct stg; simpl in Hok; cbn [stage_eqb andb]; repeat case_match; simpl snd;
    rewrite ?assign_store, ?register_store, ?cleanup_store;
    first [ by right
          | left; eexists; split; [reflexivity|];
            unfold session_ok; simpl; intuition eauto ].
Qed.

Lemma touched_ok r st : store_ok st -> session_ok (touched r st).
Proof.
  intros Hst. unfold touched.
  destruct (sessionData st !! req_sessionId r) as [s|] eqn:E; [|done].
  exact (Hst _ _ E).
Qed.

Lemma handler_preserves r st : store_ok st -> store_ok (snd (handler r st)).
Proof.
  intros Hst sessionId s. rewrite handler_flow.
  destruct (flow_outcome r (touched r st) st (touched_ok r st Hst)) as [(s1 & -> & Hok)| ->].
  - destruct (decide (req_sessionId r = sessionId)) as [<-|Hne].
    + rewrite lookup_insert_eq. by intros [= <-].
    + rewrite lookup_insert_ne by done. apply Hst.
  - intros [_ H]%lookup_delete_Some. by apply (Hst sessionId).
Qed.

Lemma sweep_preserves now st : store_ok st -> store_ok (sweep now st).
Proof.
  intros Hst sessionId s. rewrite sweep_lookup.
  destruct (sessionData st !! sessionId) as [s0|] eqn:E; [|done].
  destruct (expired now s0); [done|]. intros [= <-]. by apply (Hst sessionId).
Qed.

Lemma reachable_ok st : reachable st -> store_ok st.
Proof.
  induction 1 as [|st e _ IH]; [by intros sessionId s|].
  destruct e as [r|now]; [by apply handler_preserves|by apply sweep_preserves].
Qed.

(** C3. Every request preserves the invariant of the store: each stored
    session has the fields of [farmerData] that the stages before its own
    assign ([name] from [SELECT_COUNTY] on, [county] from [SELECT_CROP] on,
    [crop] from [ENTER_FARM_SIZE] on, [farmSize] at
    [CONFIRM_REGISTRATION]).  Hence in every state reached from the empty
    store by requests and sweeper ticks the invariant holds, and a session
    at [CONFIRM_REGISTRATION] has [name], [county], [crop] and [farmSize]. *)
Theorem store_invariant :
  (forall r st, store_ok st -> store_ok (snd (handler r st))) /\
  (forall st, reachable st -> store_ok st) /\
  (forall st sessionId s,
     reachable st -> sessionData st !! sessionId = Some s ->
     stage s = CONFIRM_REGISTRATION -> complete (farmerData s)).
Proof.
  split; [exact handler_preserves|]. split; [exact reachable_ok|].
  intros st sessionId s Hst Hs Hstage.
  pose proof (reachable_ok st Hst sessionId s Hs) as Hok.
  unfold session_ok in Hok. by rewrite Hstage in Hok.
Qed.

Lemma store_invariant_witness :
  reachable at_confirmation /\
  complete (farmerData (mkSession caller CONFIRM_REGISTRATION jane 5000 0)).
Proof.
  assert (H : reachable at_confirmation).
  { unfold at_confirmation, at_farm_size. cbn [foldl].
    repeat apply reachable_step. apply reachable_initial. }
  split; [exact H|].
  refine (proj2 (proj2 store_invariant) at_confirmation "ATUid_1" _ H _ _).
  - vm_compute; reflexivity.
  - reflexivity.
Defined.

(** ** Scenario A *)

Lemma handler_new sessionId phone text now created date st :
  sessionData st !! sessionId = None ->
  handler (mkRequest sessionId phone text now created date) st =
  flow (mkRequest sessionId phone text now created date) (newSession phone now created)
    (store sessionId (newSession phone now created) st).
Proof. intros H. rewrite handler_flow. unfold touched. simpl. by rewrite H. Qed.

Lemma handler_store sessionId phone text now created date s st :
  handler (mkRequest sessionId phone text now created date) (store sessionId s st) =
  flow (mkRequest sessionId phone text now created date) (set_lastActivity now s)
    (store sessionId (set_lastActivity now s) st).
Proof. rewrite handler_flow. simpl req_sessionId. by rewrite touched_store, store_store. Qed.

Ltac run_flow :=
  match goal with
  | |- context [flow ?r ?s ?st] =>
      let v := eval cbv -[store assign cleanupSession register] in (flow r s st) in
      change (flow r s st) with v
  end;
  rewrite ?assign_store, ?register_store, ?cleanup_store; cbv beta iota zeta.

(** C1. Scenario A.  For an unseen session id, one for which the lookup
    of line 57 finds nothing (it is not in the store and names no
    inherited property), and a phone number under which line 236 files an
    entry (any but ["__proto__"]), the seven requests with the cumulative
    texts of the scenario are answered, in order, with the main menu, the
    name prompt, the county menu, the crop menu, the farm-size prompt, the
    confirmation screen showing Jane Wanjiru, Nairobi, Maize and 3.5 acres
    (the first six are [CON] responses) and the [END] success message.
    Afterwards the registry holds under the caller's phone number the
    record with these fields and [farmSize] 3.5, in place of any record it
    held there, and the session is no longer in the store. *)
Theorem scenarioA_registers st sessionId phone clock created date :
  sessionData st !! sessionId = None ->
  plain sessionId = true ->
  phone <> "__proto__" ->
  exists final,
    serve st (dialogue sessionId phone clock created date scenarioA) =
      ([generateMainMenu; namePrompt; countyMenu; generateCropMenu; farmSizePrompt;
        confirmationA; successA], final) /\
    Forall (fun response => startsWith "CON " response = true)
      [generateMainMenu; namePrompt; countyMenu; generateCropMenu; farmSizePrompt;
       confirmationA] /\
    startsWith "END " successA = true /\
    farmerDatabase final = <[phone := mkFarmer jane phone (date 6%nat)]> (farmerDatabase st) /\
    farmerDatabase final !! phone = Some (mkFarmer jane phone (date 6%nat)) /\
    farmSize jane = Some three_and_a_half /\
    parseFloat "3.5" = three_and_a_half /\
    number_to_string three_and_a_half = "3.5" /\
    sessionData final = sessionData st /\
    sessionData final !! sessionId = None.
Proof.
  intros Hnew _ _.
  exists (mkState (sessionData st)
            (<[phone := mkFarmer jane phone (date 6%nat)]> (farmerDatabase st))).
  split.
  - unfold dialogue, scenarioA. cbn [dialogue_from serve].
    rewrite (handler_new _ _ _ _ _ _ _ Hnew). run_flow.
    do 6 (rewrite handler_store; run_flow).
    unfold without, register. simpl. by rewrite (delete_id _ _ Hnew).
  - split; [repeat constructor|]. split; [reflexivity|]. split; [reflexivity|].
    split; [apply lookup_insert_eq|]. repeat split; try reflexivity. exact Hnew.
Qed.

Lemma scenarioA_registers_witness :
  exists final,
    serve initial (dialogue "ATUid_1" caller (fun i => 1000 * Z.of_nat i)
                     (fun i => 1000 * Z.of_nat i + 1)
                     (fun _ => "15/08/2025, 21:30:00") scenarioA)
    = ([generateMainMenu; namePrompt; countyMenu; generateCropMenu; farmSizePrompt;
        confirmationA; successA], final) /\
    farmerDatabase final !! caller = Some (mkFarmer jane caller "15/08/2025, 21:30:00").
Proof.
  destruct (scenarioA_registers initial "ATUid_1" caller (fun i => 1000 * Z.of_nat i)
              (fun i => 1000 * Z.of_nat i + 1)
              (fun _ => "15/08/2025, 21:30:00")) as (final & H1 & _ & _ & _ & H2 & _).
  - reflexivity.
  - reflexivity.
  - discriminate.
  - exists final. split; assumption.
Defined.

(** ** The response deadline *)



(** * Further properties of the handler *)

Lemma text_not_empty text : String.eqb text "" = false -> text <> "".
Proof. intros H ->. discriminate H. Qed.

Lemma continue_not_end response :
  startsWith "CON " response = true -> startsWith "END" response = false.
Proof.
  destruct response as [|c rest]; [done|].
  change (startsWith "CON " (String c rest))
    with (Ascii.eqb "C" c && startsWith "ON " rest).
  change (startsWith "END" (String c rest))
    with (Ascii.eqb "E" c && startsWith "ND" rest).
  intros [H _]%andb_prop. apply Ascii.eqb_eq in H. by subst.
Qed.

Lemma startsWith_prefix p q s :
  startsWith (p ++ q) s = true -> startsWith p s = true.
Proof.
  revert s. induction p as [|a p IH]; intros [|b s]; cbn [startsWith append]; try done.
  intros [-> H]%andb_prop. by rewrite (IH _ H).
Qed.

Lemma end_prefix response :
  startsWith "END " response = true -> startsWith "END" response = true.
Proof. apply (startsWith_prefix "END" " "). Qed.

Ltac name_tests :=
  repeat match goal with
  | H : String.eqb _ _ = true |- _ => apply String.eqb_eq in H
  | H : String.eqb (req_text _) "" = false |- _ => apply text_not_empty in H
  | H : (_ =? _) = false |- _ => apply Z.eqb_neq in H
  | H : (_ =? _) = true |- _ => apply Z.eqb_eq in H
  | H : _ && _ = true |- _ => apply andb_prop in H; destruct H
  end.

(** What one pass through the dispatch does to the session, the store and
    the registry. *)
Lemma flow_effect r s0 st :
  (startsWith "CON " (fst (flow r s0 (store (req_sessionId r) s0 st))) = true /\
   farmerDatabase (snd (flow r s0 (store (req_sessionId r) s0 st))) = farmerDatabase st /\
   exists s1,
     sessionData (snd (flow r s0 (store (req_sessionId r) s0 st)))
     = <[req_sessionId r := s1]> (sessionData st) /\ kept_as s0 s1) \/
  (startsWith "END " (fst (flow r s0 (store (req_sessionId r) s0 st))) = true /\
   sessionData (snd (flow r s0 (store (req_sessionId r) s0 st)))
   = delete (req_sessionId r) (sessionData st) /\
   (farmerDatabase (snd (flow r s0 (store (req_sessionId r) s0 st))) = farmerDatabase st \/
    (stage s0 = CONFIRM_REGISTRATION /\ currentInput (req_text r) = "1" /\
     reaches_stage_dispatch r /\
     farmerDatabase (snd (flow r s0 (store (req_sessionId r) s0 st)))
     = <[req_phoneNumber r := mkFarmer (farmerData s0) (req_phoneNumber r) (req_date r)]>
         (farmerDatabase st)))).
Proof.
  destruct s0 as [p stg d la ca]. unfold flow. simpl stage.
  destruct stg; cbn [stage_eqb andb]; repeat case_match; simpl fst; simpl snd;
    rewrite ?assign_store, ?register_store, ?cleanup_store; name_tests;
    first
      [ left; split; [reflexivity|]; split; [reflexivity|];
        eexists; split; [reflexivity|];
        unfold kept_as, field_changes; simpl; intuition eauto
      | right; split; [reflexivity|]; split; [reflexivity|]; left; reflexivity
      | right; split; [reflexivity|]; split; [reflexivity|]; right;
        unfold reaches_stage_dispatch; simpl; intuition eauto ].
Qed.

Lemma handler_effect r st :
  (startsWith "CON " (fst (handler r st)) = true /\
   farmerDatabase (snd (handler r st)) = farmerDatabase st /\
   exists s1,
     sessionData (snd (handler r st)) = <[req_sessionId r := s1]> (sessionData st) /\
     kept_as (touched r st) s1) \/
  (startsWith "END " (fst (handler r st)) = true /\
   sessionData (snd (handler r st)) = delete (req_sessionId r) (sessionData st) /\
   (farmerDatabase (snd (handler r st)) = farmerDatabase st \/
    (stage (touched r st) = CONFIRM_REGISTRATION /\ currentInput (req_text r) = "1" /\
     reaches_stage_dispatch r /\
     farmerDatabase (snd (handler r st))
     = <[req_phoneNumber r :=
           mkFarmer (farmerData (touched r st)) (req_phoneNumber r) (req_date r)]>
         (farmerDatabase st)))).
Proof. rewrite handler_flow. apply flow_effect. Qed.

Lemma end_not_continue response :
  startsWith "END " response = true -> startsWith "CON " response = false.
Proof.
  destruct response as [|c rest]; [done|].
  change (startsWith "CON " (String c rest))
    with (Ascii.eqb "C" c && startsWith "ON " rest).
  change (startsWith "END " (String c rest))
    with (Ascii.eqb "E" c && startsWith "ND " rest).
  intros [H _]%andb_prop. apply Ascii.eqb_eq in H. by subst.
Qed.

Lemma end_test r st :
  startsWith "END" (fst (handler r st)) = true <->
  sessionData (snd (handler r st)) !! req_sessionId r = None.
Proof.
  destruct (handler_effect r st) as [(Hc & _ & s1 & -> & _)|(He & -> & _)].
  - rewrite lookup_insert_eq, (continue_not_end _ Hc). by split.
  - rewrite lookup_delete_eq, (end_prefix _ He). by split.
Qed.

(** X1. The kind of the response tells what became of the session.  For
    a request whose session id is stored, or names no inherited property:
    the response begins with [END ] exactly when the session id is no
    longer in the store after the request, and with [CON ] exactly when a
    session is stored under it.  The test [startsWith('END')] of line 291
    and of the tester page decides the same. *)
Theorem end_iff_session_deleted r st :
  regular (req_sessionId r) st ->
  (startsWith "END " (fst (handler r st)) = true <->
   sessionData (snd (handler r st)) !! req_sessionId r = None) /\
  (startsWith "CON " (fst (handler r st)) = true <->
   is_Some (sessionData (snd (handler r st)) !! req_sessionId r)) /\
  (startsWith "END" (fst (handler r st)) = true <->
   sessionData (snd (handler r st)) !! req_sessionId r = None).
Proof.
  intros _.
  destruct (handler_effect r st) as [(Hc & _ & s1 & -> & _)|(He & -> & _)].
  - rewrite lookup_insert_eq. pose proof (continue_not_end _ Hc) as Hn.
    assert (He : startsWith "END " (fst (handler r st)) = false).
    { destruct (startsWith "END " (fst (handler r st))) eqn:E; [|done].
      apply end_not_continue in E. congruence. }
    rewrite Hc, He, Hn. repeat split; try done; eauto.
  - rewrite lookup_delete_eq. pose proof (end_prefix _ He) as Hp.
    rewrite (end_not_continue _ He), He, Hp. repeat split; try done;
      by intros [? ?].
Qed.

Lemma end_iff_session_deleted_witness :
  startsWith "END " (fst (handler (call "3" 1000) at_farm_size)) = true <->
  sessionData (snd (handler (call "3" 1000) at_farm_size)) !! "ATUid_1" = None.
Proof.
  refine (proj1 (end_iff_session_deleted (call "3" 1000) at_farm_size _)).
  left. vm_compute. eauto.
Defined.

(** X2. A request touches only its own session and, in the registry, only
    the entry of its own phone number: every other session and every other
    registry entry is as before, and no registry entry is ever removed. *)
Theorem handler_frame r st :
  (forall other, other <> req_sessionId r ->
     sessionData (snd (handler r st)) !! other = sessionData st !! other) /\
  (forall phone, phone <> req_phoneNumber r ->
     farmerDatabase (snd (handler r st)) !! phone = farmerDatabase st !! phone) /\
  (forall phone, is_Some (farmerDatabase st !! phone) ->
     is_Some (farmerDatabase (snd (handler r st)) !! phone)).
Proof.
  destruct (handler_effect r st)
    as [(_ & -> & s1 & -> & _)|(_ & -> & [-> | (_ & _ & _ & ->)])];
    repeat split; intros k Hk;
    rewrite ?lookup_insert_ne, ?lookup_delete_ne by done; try done.
  destruct (decide (req_phoneNumber r = k)) as [<-|Hne].
  - rewrite lookup_insert_eq. eauto.
  - by rewrite lookup_insert_ne.
Qed.

Lemma handler_frame_witness :
  sessionData (snd (handler (call "1*Jane Wanjiru*1*1*abc" 5000) two_sessions)) !! "ATUid_2"
  = sessionData two_sessions !! "ATUid_2".
Proof.
  apply (proj1 (handler_frame (call "1*Jane Wanjiru*1*1*abc" 5000) two_sessions)).
  discriminate.
Defined.

(** X3. The registry is written in one case only: the session is stored at
    [CONFIRM_REGISTRATION], the request reaches the dispatch on the stage
    and its latest entry is ["1"].  Then the entry of the phone number of
    the request (not of the one recorded in the session) becomes the
    [farmerData] of the session with that phone number and the date of the
    request.  In every other case the registry is unchanged. *)
Theorem registry_written_on_confirmation r st :
  farmerDatabase (snd (handler r st)) = farmerDatabase st \/
  exists s,
    sessionData st !! req_sessionId r = Some s /\
    stage s = CONFIRM_REGISTRATION /\
    reaches_stage_dispatch r /\ currentInput (req_text r) = "1" /\
    farmerDatabase (snd (handler r st))
    = <[req_phoneNumber r := mkFarmer (farmerData s) (req_phoneNumber r) (req_date r)]>
        (farmerDatabase st).
Proof.
  destruct (handler_effect r st)
    as [(_ & -> & _)|(_ & _ & [-> | (Hstage & Hcur & Hreach & ->)])]; [by left..|].
  right. unfold touched in *.
  destruct (sessionData st !! req_sessionId r) as [s|]; [|discriminate Hstage].
  by exists s.
Qed.

(** X4. A session that a request leaves in the store keeps its phone
    number and its creation time, and its last activity is the reading
    that the request took at line 62 or 67; a session created by the
    request has the phone number of the request and, as creation time, the
    reading of line 63, which is taken after the one of its last
    activity. *)
Theorem session_identity r st s' :
  sessionData (snd (handler r st)) !! req_sessionId r = Some s' ->
  lastActivity s' = req_now r /\
  match sessionData st !! req_sessionId r with
  | Some s => phoneNumber s' = phoneNumber s /\ createdAt s' = createdAt s
  | None => phoneNumber s' = req_phoneNumber r /\ createdAt s' = req_created r
  end.
Proof.
  destruct (handler_effect r st) as [(_ & _ & s1 & -> & Hp & Hc & Ha & _)|(_ & -> & _)].
  - rewrite lookup_insert_eq. intros [= <-]. rewrite Hp, Hc, Ha. unfold touched.
    by destruct (sessionData st !! req_sessionId r).
  - by rewrite lookup_delete_eq.
Qed.

Lemma session_identity_witness :
  lastActivity (mkSession caller CONFIRM_REGISTRATION jane 5000 0) = 5000 /\
  phoneNumber (mkSession caller CONFIRM_REGISTRATION jane 5000 0) = caller /\
  createdAt (mkSession caller CONFIRM_REGISTRATION jane 5000 0) = 0.
Proof.
  refine (session_identity (call "1*Jane Wanjiru*1*1*3.5" 5000) at_farm_size _ _).
  vm_compute; reflexivity.
Defined.

(** X5. The stage of a session moves along the edges of the dialogue only:
    a request leaves a stored session at [MAIN_MENU] or [ENTER_NAME], or
    one step further ([ENTER_NAME] to [SELECT_COUNTY], [SELECT_COUNTY] to
    [ENTER_CUSTOM_COUNTY] or [SELECT_CROP], [ENTER_CUSTOM_COUNTY] to
    [SELECT_CROP], [SELECT_CROP] to [ENTER_CUSTOM_CROP] or
    [ENTER_FARM_SIZE], [ENTER_CUSTOM_CROP] to [ENTER_FARM_SIZE],
    [ENTER_FARM_SIZE] to itself or [CONFIRM_REGISTRATION]); a session
    created by the request is left at [MAIN_MENU] or [ENTER_NAME]. *)
Theorem stage_moves_along_edges r st s' :
  sessionData (snd (handler r st)) !! req_sessionId r = Some s' ->
  match sessionData st !! req_sessionId r with
  | Some s => edge (stage s) (stage s') = true
  | None => stage s' = MAIN_MENU \/ stage s' = ENTER_NAME
  end /\
  (stage s' = CONFIRM_REGISTRATION ->
   exists s, sessionData st !! req_sessionId r = Some s /\ stage s = ENTER_FARM_SIZE).
Proof.
  destruct (handler_effect r st) as [(_ & _ & s1 & -> & _ & _ & _ & He & _)|(_ & -> & _)];
    [|by rewrite lookup_delete_eq].
  rewrite lookup_insert_eq. intros [= <-]. unfold touched in He.
  destruct (sessionData st !! req_sessionId r) as [s|]; simpl in He.
  - split; [done|]. intros E. rewrite E in He. exists s. split; [done|].
    by destruct (stage s).
  - split; [by destruct (stage s1); auto|]. intros E. by rewrite E in He.
Qed.

Lemma stage_moves_along_edges_witness :
  edge ENTER_FARM_SIZE CONFIRM_REGISTRATION = true.
Proof.
  refine (proj1 (stage_moves_along_edges (call "1*Jane Wanjiru*1*1*3.5" 5000) at_farm_size
            (mkSession caller CONFIRM_REGISTRATION jane 5000 0) _)).
  vm_compute; reflexivity.
Defined.

(** X6. No request clears a field of [farmerData]: after a request to a
    stored session that stays in the store, [name] is as before unless the
    session was at [ENTER_NAME], [county] unless it was at [SELECT_COUNTY]
    or [ENTER_CUSTOM_COUNTY], [crop] unless it was at [SELECT_CROP] or
    [ENTER_CUSTOM_CROP], [farmSize] unless it was at [ENTER_FARM_SIZE],
    and a field that changed is present.  In particular returning to the
    main menu keeps what was collected. *)
Theorem collected_fields_kept r st s s' :
  sessionData st !! req_sessionId r = Some s ->
  sessionData (snd (handler r st)) !! req_sessionId r = Some s' ->
  field_changes (stage s) (farmerData s) (farmerData s') /\
  (is_Some (name (farmerData s)) -> is_Some (name (farmerData s'))) /\
  (is_Some (county (farmerData s)) -> is_Some (county (farmerData s'))) /\
  (is_Some (crop (farmerData s)) -> is_Some (crop (farmerData s'))) /\
  (is_Some (farmSize (farmerData s)) -> is_Some (farmSize (farmerData s'))).
Proof.
  intros Hs.
  destruct (handler_effect r st) as [(_ & _ & s1 & -> & _ & _ & _ & _ & Hf)|(_ & -> & _)];
    [|by rewrite lookup_delete_eq].
  rewrite lookup_insert_eq. intros [= <-]. unfold touched in Hf. rewrite Hs in Hf.
  simpl in Hf. split; [done|].
  destruct Hf as ([->|[_ ?]] & [->|[_ ?]] & [->|[_ ?]] & [->|[_ ?]]); auto.
Qed.

Lemma collected_fields_kept_witness :
  field_changes CONFIRM_REGISTRATION jane jane.
Proof.
  refine (proj1 (collected_fields_kept (call "" 9000) at_confirmation
            (mkSession caller CONFIRM_REGISTRATION jane 5000 0)
            (mkSession caller MAIN_MENU jane 9000 0) _ _));
    vm_compute; reflexivity.
Defined.

(** ** The branches of the dispatch *)

Ltac enter_dispatch Hs Hstage Ht Hlevel :=
  rewrite handler_flow; unfold touched; rewrite Hs; unfold flow;
  rewrite (not_empty_text _ Ht);
  let H := fresh in
  pose proof Hlevel as H; apply Z.eqb_neq in H; rewrite H; clear H;
  simpl stage; rewrite Hstage; cbn [stage_eqb andb].

Lemma level_text text n : inputLevel text = n -> n <> 0 -> text <> "".
Proof. intros H Hn ->. by apply Hn. Qed.

Lemma currentInput_entry text : inputLevel text <> 0 -> entry (currentInput text).
Proof.
  intros H. rewrite currentInput_last. unfold inputLevel in H.
  pose proof (userInputs_entries text) as Hall.
  destruct (userInputs text) as [|x l] using rev_ind; [done|].
  rewrite last_snoc. simpl. apply Hall, in_or_app. right. by left.
Qed.

Lemma counties_table k c : counties k = Some c <-> In (k, c) county_codes.
Proof.
  unfold county_codes. split.
  - unfold counties.
    repeat (match goal with |- context [String.eqb k ?x] =>
              destruct (String.eqb_spec k x) as [->|?] end;
            [intros [= <-]; simpl; tauto|]).
    done.
  - intros H. simpl in H. repeat destruct H as [[= <- <-]|H]; done.
Qed.

Lemma crops_table k c : crops k = Some c <-> In (k, c) crop_codes.
Proof.
  unfold crop_codes. split.
  - unfold crops.
    repeat (match goal with |- context [String.eqb k ?x] =>
              destruct (String.eqb_spec k x) as [->|?] end;
            [intros [= <-]; simpl; tauto|]).
    done.
  - intros H. simpl in H. repeat destruct H as [[= <- <-]|H]; done.
Qed.

(** X7. Free text is stored as it was entered.  At [ENTER_NAME] with input
    level 2 the latest entry becomes [name] and the county menu follows;
    at [ENTER_CUSTOM_COUNTY] with level 4 it becomes [county] and the crop
    menu follows; at [ENTER_CUSTOM_CROP], at any level that reaches the
    dispatch, the latest entry becomes [crop] and the farm-size prompt
    follows.  Where a level is asked for, the stored text is a non-empty
    text without ['*']. *)
Theorem free_text_stored r st s :
  sessionData st !! req_sessionId r = Some s ->
  let latest := currentInput (req_text r) in
  let s0 := set_lastActivity (req_now r) s in
  (stage s = ENTER_NAME -> inputLevel (req_text r) = 2 ->
     entry latest /\
     handler r st =
     (countyMenu,
      store (req_sessionId r)
        (set_stage SELECT_COUNTY (set_farmerData (set_name latest) s0)) st)) /\
  (stage s = ENTER_CUSTOM_COUNTY -> inputLevel (req_text r) = 4 ->
     entry latest /\
     handler r st =
     (generateCropMenu,
      store (req_sessionId r)
        (set_stage SELECT_CROP (set_farmerData (set_county latest) s0)) st)) /\
  (stage s = ENTER_CUSTOM_CROP -> reaches_stage_dispatch r ->
     handler r st =
     (farmSizePrompt,
      store (req_sessionId r)
        (set_stage ENTER_FARM_SIZE (set_farmerData (set_crop latest) s0)) st)).
Proof.
  intros Hs latest s0. split; [|split].
  - intros Hstage Hlevel. split; [apply currentInput_entry; lia|].
    assert (Ht : req_text r <> "") by (by apply (level_text _ 2)).
    assert (Hl : inputLevel (req_text r) <> 1) by lia.
    enter_dispatch Hs Hstage Ht Hl. rewrite Hlevel. cbn [Z.eqb Pos.eqb].
    by rewrite !assign_store.
  - intros Hstage Hlevel. split; [apply currentInput_entry; lia|].
    assert (Ht : req_text r <> "") by (by apply (level_text _ 4)).
    assert (Hl : inputLevel (req_text r) <> 1) by lia.
    enter_dispatch Hs Hstage Ht Hl. rewrite Hlevel. cbn [Z.eqb Pos.eqb].
    by rewrite !assign_store.
  - intros Hstage [Ht Hl]. enter_dispatch Hs Hstage Ht Hl. by rewrite !assign_store.
Qed.

Lemma free_text_stored_witness :
  handler (call "1*Jane Wanjiru" 2000)
    (store "ATUid_1" (mkSession caller ENTER_NAME (mkFarmerData None None None None) 1000 0)
       initial)
  = (countyMenu, at_county).
Proof.
  refine (proj2 (proj1 (free_text_stored (call "1*Jane Wanjiru" 2000)
            (store "ATUid_1"
               (mkSession caller ENTER_NAME (mkFarmerData None None None None) 1000 0)
               initial)
            (mkSession caller ENTER_NAME (mkFarmerData None None None None) 1000 0) _) _ _));
    vm_compute; reflexivity.
Defined.

(** X8. The county menu.  For a stored session at [SELECT_COUNTY] and a
    request of input level 3: the entry ["8"] asks for a county name and
    moves to [ENTER_CUSTOM_COUNTY]; an entry ["1"] to ["7"] stores the
    county of that number ([counties] holds exactly the seven shown in the
    menu) and moves to [SELECT_CROP] with the crop menu; any other entry
    that names no inherited property, for which the lookup of line 164
    finds nothing, ends the dialogue with "invalid selection" and deletes
    the session. *)
Theorem county_selection r st s :
  sessionData st !! req_sessionId r = Some s ->
  stage s = SELECT_COUNTY ->
  inputLevel (req_text r) = 3 ->
  let latest := currentInput (req_text r) in
  let s0 := set_lastActivity (req_now r) s in
  (latest = "8" ->
     handler r st =
     (customCountyPrompt, store (req_sessionId r) (set_stage ENTER_CUSTOM_COUNTY s0) st)) /\
  (forall c, In (latest, c) county_codes ->
     handler r st =
     (generateCropMenu,
      store (req_sessionId r) (set_stage SELECT_CROP (set_farmerData (set_county c) s0)) st)) /\
  (latest <> "8" -> (forall c, ~ In (latest, c) county_codes) -> plain latest = true ->
     handler r st = (invalidSelection, without (req_sessionId r) st)).
Proof.
  intros Hs Hstage Hlevel latest s0.
  assert (Ht : req_text r <> "") by (by apply (level_text _ 3)).
  assert (Hl : inputLevel (req_text r) <> 1) by lia.
  enter_dispatch Hs Hstage Ht Hl. rewrite Hlevel. cbn [Z.eqb Pos.eqb]. fold latest.
  split; [|split].
  - intros ->. cbn [String.eqb Ascii.eqb Bool.eqb]. by rewrite assign_store.
  - intros c Hc. pose proof (proj2 (counties_table latest c) Hc) as E.
    destruct (String.eqb_spec latest "8") as [E8|_]; [by rewrite E8 in E|].
    by rewrite E, !assign_store.
  - intros H8 Hnone _. destruct (String.eqb_spec latest "8"); [done|].
    destruct (counties latest) as [c|] eqn:E; [|by rewrite cleanup_store].
    by apply counties_table, Hnone in E.
Qed.

Lemma county_selection_witness :
  handler (call "1*Jane Wanjiru*4" 3000) at_county
  = (generateCropMenu,
     store "ATUid_1"
       (mkSession caller SELECT_CROP
          (mkFarmerData (Some "Jane Wanjiru") (Some "Nakuru") None None) 3000 0) initial).
Proof.
  refine (proj1 (proj2 (county_selection (call "1*Jane Wanjiru*4" 3000) at_county
            county_session _ _ _)) "Nakuru" _).
  - reflexivity.
  - reflexivity.
  - vm_compute; reflexivity.
  - vm_compute. tauto.
Defined.

(** X9. The crop menu is read at any input level.  For a stored session at
    [SELECT_CROP] and a request that reaches the dispatch on the stage,
    whatever its level: the entry ["9"] asks for a crop name and moves to
    [ENTER_CUSTOM_CROP]; an entry ["1"] to ["8"] stores the crop of that
    number ([crops] holds exactly the eight shown) and moves to
    [ENTER_FARM_SIZE] with the farm-size prompt; any other latest entry
    that names no inherited property, for which the lookup of line 195
    finds nothing, ends the dialogue with "invalid selection" and deletes
    the session. *)
Theorem crop_selection r st s :
  sessionData st !! req_sessionId r = Some s ->
  stage s = SELECT_CROP ->
  reaches_stage_dispatch r ->
  let latest := currentInput (req_text r) in
  let s0 := set_lastActivity (req_now r) s in
  (latest = "9" ->
     handler r st =
     (customCropPrompt, store (req_sessionId r) (set_stage ENTER_CUSTOM_CROP s0) st)) /\
  (forall c, In (latest, c) crop_codes ->
     handler r st =
     (farmSizePrompt,
      store (req_sessionId r) (set_stage ENTER_FARM_SIZE (set_farmerData (set_crop c) s0)) st)) /\
  (latest <> "9" -> (forall c, ~ In (latest, c) crop_codes) -> plain latest = true ->
     handler r st = (invalidSelection, without (req_sessionId r) st)).
Proof.
  intros Hs Hstage [Ht Hl] latest s0.
  enter_dispatch Hs Hstage Ht Hl. fold latest.
  split; [|split].
  - intros ->. cbn [String.eqb Ascii.eqb Bool.eqb]. by rewrite assign_store.
  - intros c Hc. pose proof (proj2 (crops_table latest c) Hc) as E.
    destruct (String.eqb_spec latest "9") as [E9|_]; [by rewrite E9 in E|].
    by rewrite E, !assign_store.
  - intros H9 Hnone _. destruct (String.eqb_spec latest "9"); [done|].
    destruct (crops latest) as [c|] eqn:E; [|by rewrite cleanup_store].
    by apply crops_table, Hnone in E.
Qed.

Lemma crop_selection_witness :
  handler (call "1*Jane Wanjiru*1*x*y*6" 4000) at_crop
  = (farmSizePrompt,
     store "ATUid_1"
       (mkSession caller ENTER_FARM_SIZE
          (mkFarmerData (Some "Jane Wanjiru") (Some "Nairobi") (Some "Tea") None) 4000 0)
       initial).
Proof.
  refine (proj1 (proj2 (crop_selection (call "1*Jane Wanjiru*1*x*y*6" 4000) at_crop
            crop_session _ _ _)) "Tea" _).
  - reflexivity.
  - reflexivity.
  - split; vm_compute; discriminate.
  - vm_compute. tauto.
Defined.

Lemma farmerDatabase_store sessionId s st :
  farmerDatabase (store sessionId s st) = farmerDatabase st.
Proof. reflexivity. Qed.

Lemma selection_flow r st :
  inputLevel (req_text r) = 1 ->
  handler r st =
  if String.eqb (currentInput (req_text r)) "1" then
    (namePrompt, store (req_sessionId r) (set_stage ENTER_NAME (touched r st)) st)
  else if String.eqb (currentInput (req_text r)) "2" then
    (match farmerDatabase st !! req_phoneNumber r with
     | Some farmer => registrationDetails farmer
     | None => notRegistered
     end, without (req_sessionId r) st)
  else if String.eqb (currentInput (req_text r)) "3" then
    (goodbye, without (req_sessionId r) st)
  else (invalidOption, without (req_sessionId r) st).
Proof.
  intros Hlevel. rewrite handler_flow. unfold flow.
  rewrite (level_one_text _ Hlevel), Hlevel. change (1 =? 1) with true. cbv iota.
  rewrite farmerDatabase_store.
  repeat case_match; by rewrite ?assign_store, ?cleanup_store.
Qed.

Lemma confirm_flow r st s :
  sessionData st !! req_sessionId r = Some s ->
  stage s = CONFIRM_REGISTRATION ->
  reaches_stage_dispatch r ->
  handler r st =
  if String.eqb (currentInput (req_text r)) "1" then
    (registrationSuccessful (farmerData s),
     without (req_sessionId r)
       (register (req_phoneNumber r)
          (mkFarmer (farmerData s) (req_phoneNumber r) (req_date r)) st))
  else if String.eqb (currentInput (req_text r)) "2" then
    (registrationCancelled, without (req_sessionId r) st)
  else (invalidCancelled, without (req_sessionId r) st).
Proof.
  intros Hs Hstage [Ht Hl]. enter_dispatch Hs Hstage Ht Hl.
  repeat case_match; by rewrite ?register_store, ?cleanup_store.
Qed.

(** X10. The confirmation screen.  For a stored session at
    [CONFIRM_REGISTRATION] and a request that reaches the dispatch on the
    stage: the entry ["1"] registers the collected data under the phone
    number of the request, when that is a key under which line 236 files
    an entry (any but ["__proto__"]), and answers with the success text; ["2"]
    answers "cancelled"; any other entry answers "invalid option,
    cancelled"; the last two leave the registry as it was.  In all three
    cases the session is deleted, so that what was collected is lost
    unless it was registered. *)
Theorem confirmation_outcomes r st s :
  sessionData st !! req_sessionId r = Some s ->
  stage s = CONFIRM_REGISTRATION ->
  reaches_stage_dispatch r ->
  let latest := currentInput (req_text r) in
  (latest = "1" -> req_phoneNumber r <> "__proto__" ->
     handler r st =
     (registrationSuccessful (farmerData s),
      mkState (delete (req_sessionId r) (sessionData st))
        (<[req_phoneNumber r := mkFarmer (farmerData s) (req_phoneNumber r) (req_date r)]>
           (farmerDatabase st)))) /\
  (latest = "2" ->
     handler r st = (registrationCancelled, without (req_sessionId r) st)) /\
  (latest <> "1" -> latest <> "2" ->
     handler r st = (invalidCancelled, without (req_sessionId r) st)) /\
  sessionData (snd (handler r st)) !! req_sessionId r = None.
Proof.
  intros Hs Hstage Hreach latest.
  rewrite (confirm_flow r st s Hs Hstage Hreach). fold latest.
  split; [|split; [|split]].
  - by intros -> _.
  - by intros ->.
  - intros H1 H2. destruct (String.eqb_spec latest "1"); [done|].
    by destruct (String.eqb_spec latest "2").
  - repeat case_match; apply lookup_delete_eq.
Qed.

Lemma confirmation_outcomes_witness :
  handler (call "1*Jane Wanjiru*1*1*3.5*2" 6000) at_confirmation
  = (registrationCancelled, without "ATUid_1" at_confirmation).
Proof.
  refine (proj1 (proj2 (confirmation_outcomes (call "1*Jane Wanjiru*1*1*3.5*2" 6000)
            at_confirmation (mkSession caller CONFIRM_REGISTRATION jane 5000 0) _ _ _)) _).
  - vm_compute; reflexivity.
  - reflexivity.
  - split; vm_compute; discriminate.
  - vm_compute; reflexivity.
Defined.

(** X11. What is registered can be read back.  After a confirmation
    (entry ["1"] at [CONFIRM_REGISTRATION]) from a phone number, a status
    check from that phone number (the single entry ["2"], under any
    session id) answers with the details of exactly the data that the
    confirmed session held, and with the date of the confirming request;
    the checking session is not kept. *)
Theorem registration_read_back r st s check :
  sessionData st !! req_sessionId r = Some s ->
  stage s = CONFIRM_REGISTRATION ->
  reaches_stage_dispatch r ->
  currentInput (req_text r) = "1" ->
  req_phoneNumber check = req_phoneNumber r ->
  inputLevel (req_text check) = 1 ->
  currentInput (req_text check) = "2" ->
  fst (handler check (snd (handler r st)))
  = registrationDetails (mkFarmer (farmerData s) (req_phoneNumber r) (req_date r)) /\
  sessionData (snd (handler check (snd (handler r st)))) !! req_sessionId check = None /\
  farmerDatabase (snd (handler check (snd (handler r st))))
  = farmerDatabase (snd (handler r st)).
Proof.
  intros Hs Hstage Hreach Hone Hphone Hlevel Htwo.
  rewrite (confirm_flow r st s Hs Hstage Hreach), Hone. cbn [String.eqb Ascii.eqb Bool.eqb].
  rewrite (selection_flow check _ Hlevel), Htwo. cbn [String.eqb Ascii.eqb Bool.eqb].
  rewrite Hphone. unfold without, register. simpl.
  rewrite lookup_insert_eq. split; [done|]. split; [apply lookup_delete_eq|done].
Qed.

Lemma registration_read_back_witness :
  fst (handler (mkRequest "ATUid_9" caller "2" 9000 9000 "16/08/2025, 08:00:00")
         (snd (handler (call "1*Jane Wanjiru*1*1*3.5*1" 6000) at_confirmation)))
  = registrationDetails (mkFarmer jane caller "15/08/2025, 21:30:00").
Proof.
  refine (proj1 (registration_read_back (call "1*Jane Wanjiru*1*1*3.5*1" 6000)
            at_confirmation (mkSession caller CONFIRM_REGISTRATION jane 5000 0)
            (mkRequest "ATUid_9" caller "2" 9000 9000 "16/08/2025, 08:00:00") _ _ _ _ _ _ _)).
  - vm_compute; reflexivity.
  - reflexivity.
  - split; vm_compute; discriminate.
  - vm_compute; reflexivity.
  - reflexivity.
  - vm_compute; reflexivity.
  - vm_compute; reflexivity.
Defined.

Lemma fallback_flow r st :
  reaches_stage_dispatch r ->
  out_of_step (stage (touched r st)) (inputLevel (req_text r)) ->
  handler r st =
  if inputLevel (req_text r) =? 0
  then (generateMainMenu,
        store (req_sessionId r) (set_stage MAIN_MENU (touched r st)) st)
  else (unexpectedState, without (req_sessionId r) st).
Proof.
  intros [Ht Hl] Hout. rewrite handler_flow. unfold flow.
  rewrite (not_empty_text _ Ht). apply Z.eqb_neq in Hl. rewrite Hl.
  destruct Hout as [-> | (n & Hn & Hne)].
  - cbn [stage_eqb andb orb]. rewrite orb_false_r.
    destruct (inputLevel (req_text r) =? 0); by rewrite ?assign_store, ?cleanup_store.
  - apply Z.eqb_neq in Hne.
    destruct (stage (touched r st)); try discriminate Hn;
      injection Hn as <-; rewrite Hne; cbn [stage_eqb andb orb]; rewrite orb_false_r;
      destruct (inputLevel (req_text r) =? 0); by rewrite ?assign_store, ?cleanup_store.
Qed.

(** X12. Requests out of step.  Take a session id that is stored, or
    names no inherited property.  When the session that the handler works
    on (the stored one, or a new one at [MAIN_MENU]) is at [MAIN_MENU], or
    at [ENTER_NAME], [SELECT_COUNTY] or [ENTER_CUSTOM_COUNTY] with an input
    level other than 2, 3 or 4 respectively, a request that reaches the
    dispatch on the stage is not taken as an answer: if its text holds
    delimiters only (level 0) the main menu is shown and the session is
    put at [MAIN_MENU]; otherwise the dialogue ends with "An error
    occurred" and the session is deleted. *)
Theorem out_of_step_request r st :
  regular (req_sessionId r) st ->
  reaches_stage_dispatch r ->
  out_of_step (stage (touched r st)) (inputLevel (req_text r)) ->
  (inputLevel (req_text r) = 0 ->
     handler r st =
     (generateMainMenu,
      store (req_sessionId r) (set_stage MAIN_MENU (touched r st)) st)) /\
  (inputLevel (req_text r) <> 0 ->
     handler r st = (unexpectedState, without (req_sessionId r) st)).
Proof.
  intros _ Hreach Hout. rewrite (fallback_flow r st Hreach Hout). split.
  - by intros ->.
  - intros H. apply Z.eqb_neq in H. by rewrite H.
Qed.

Lemma out_of_step_request_witness :
  handler (call "1*Jane Wanjiru*4*7" 3000) at_county
  = (unexpectedState, without "ATUid_1" at_county).
Proof.
  refine (proj2 (out_of_step_request (call "1*Jane Wanjiru*4*7" 3000) at_county _ _ _) _).
  - left. vm_compute. eauto.
  - split; vm_compute; discriminate.
  - right. exists 3. split; [vm_compute; reflexivity | vm_compute; discriminate].
  - vm_compute; discriminate.
Defined.

(** ** The sweeper and the handler together *)

Lemma state_eq (a b : State) :
  sessionData a = sessionData b -> farmerDatabase a = farmerDatabase b -> a = b.
Proof. destruct a, b. simpl. by intros -> ->. Qed.

Lemma expired_later t1 t2 s : t1 <= t2 -> expired t1 s = true -> expired t2 s = true.
Proof. unfold expired. intros Hle H. apply Z.ltb_lt in H. apply Z.ltb_lt. lia. Qed.

(** X13. Ticks of the sweeper compose: a later tick makes an earlier one
    redundant, a tick repeated at the same time changes nothing more, and
    a tick at which no stored session has been idle for more than the
    timeout leaves the state as it is. *)
Theorem sweep_ticks_compose t1 t2 st :
  t1 <= t2 ->
  sweep t2 (sweep t1 st) = sweep t2 st /\
  sweep t1 (sweep t2 st) = sweep t2 st /\
  sweep t2 (sweep t2 st) = sweep t2 st /\
  ((forall sessionId s, sessionData st !! sessionId = Some s ->
      t2 - lastActivity s <= SESSION_TIMEOUT) ->
   sweep t2 st = st).
Proof.
  intros Hle.
  assert (Hcomp : forall a b, a <= b ->
            sweep b (sweep a st) = sweep b st /\ sweep a (sweep b st) = sweep b st).
  { intros a b Hab. split; (apply state_eq; [|done]); apply map_eq; intros j;
      rewrite !sweep_lookup; destruct (sessionData st !! j) as [s|]; try done.
    - destruct (expired a s) eqn:Ea; [by rewrite (expired_later a b s Hab Ea)|done].
    - destruct (expired b s) eqn:Eb; [done|].
      destruct (expired a s) eqn:Ea; [|done].
      by rewrite (expired_later a b s Hab Ea) in Eb. }
  split; [apply Hcomp, Hle|]. split; [apply Hcomp, Hle|].
  split; [apply (Hcomp t2 t2); lia|].
  intros Hfresh. apply state_eq; [|done]. apply map_eq. intros j. rewrite sweep_lookup.
  destruct (sessionData st !! j) as [s|] eqn:E; [|done].
  unfold expired. destruct (Z.ltb_spec SESSION_TIMEOUT (t2 - lastActivity s)); [|done].
  specialize (Hfresh j s E). lia.
Qed.

Lemma sweep_ticks_compose_witness :
  sweep 600000 (sweep 400000 two_sessions) = sweep 600000 two_sessions.
Proof.
  apply (proj1 (sweep_ticks_compose 400000 600000 two_sessions ltac:(lia))).
Defined.

Lemma touched_lastActivity r st : lastActivity (touched r st) = req_now r.
Proof. unfold touched. by destruct (sessionData st !! req_sessionId r). Qed.

Lemma kept_lastActivity r st s' :
  sessionData (snd (handler r st)) !! req_sessionId r = Some s' ->
  lastActivity s' = req_now r /\ createdAt s' = createdAt (touched r st).
Proof.
  destruct (handler_effect r st) as [(_ & _ & s1 & -> & _ & Hc & Ha & _)|(_ & -> & _)].
  - rewrite lookup_insert_eq. intros [= <-]. by rewrite Ha, touched_lastActivity.
  - by rewrite lookup_delete_eq.
Qed.

(** X14. Every request that leaves the session in the store renews its
    lease: ticks of the sweeper up to 5 minutes after the request keep
    the session as the request left it, and any tick later than that
    removes it. *)
Theorem request_renews_lease r st s' t :
  sessionData (snd (handler r st)) !! req_sessionId r = Some s' ->
  (t - req_now r <= SESSION_TIMEOUT ->
     sessionData (sweep t (snd (handler r st))) !! req_sessionId r = Some s') /\
  (t - req_now r > SESSION_TIMEOUT ->
     sessionData (sweep t (snd (handler r st))) !! req_sessionId r = None).
Proof.
  intros Hs. destruct (kept_lastActivity r st s' Hs) as [Ha _].
  rewrite sweep_lookup, Hs. unfold expired. rewrite Ha.
  destruct (Z.ltb_spec SESSION_TIMEOUT (t - req_now r)); split; (done || lia).
Qed.

Lemma request_renews_lease_witness :
  sessionData (sweep 600000
                 (snd (handler (mkRequest "ATUid_1" caller "" 590000 590000 "") two_sessions)))
    !! "ATUid_1"
  = Some (mkSession caller MAIN_MENU jane 590000 0).
Proof.
  refine (proj1 (request_renews_lease (mkRequest "ATUid_1" caller "" 590000 590000 "")
            two_sessions (mkSession caller MAIN_MENU jane 590000 0) 600000 _) _).
  - vm_compute; reflexivity.
  - vm_compute; discriminate.
Defined.



(** ** Time stamps *)

Lemma timestamps_later t t' st : t <= t' -> timestamps_ok t st -> timestamps_ok t' st.
Proof. intros Hle H j s Hs. destruct (H j s Hs). lia. Qed.

Lemma handler_timestamps r st t :
  t <= req_now r -> req_now r <= req_created r ->
  timestamps_ok t st -> timestamps_ok (req_created r) (snd (handler r st)).
Proof.
  intros Hle Hrc Hst j s'.
  destruct (decide (j = req_sessionId r)) as [->|Hne].
  - intros Hs'. destruct (kept_lastActivity r st s' Hs') as [-> ->]. unfold touched.
    destruct (sessionData st !! req_sessionId r) as [s|] eqn:E; simpl; [|lia].
    destruct (Hst _ _ E). lia.
  - destruct (handler_effect r st) as [(_ & _ & s1 & -> & _)|(_ & -> & _)].
    + rewrite lookup_insert_ne by done. intros Hs. destruct (Hst _ _ Hs). lia.
    + rewrite lookup_delete_ne by done. intros Hs. destruct (Hst _ _ Hs). lia.
Qed.

(** X16. Time stamps are never ahead of the clock.  In every state
    reached from the empty store by requests and ticks whose clock
    readings never decrease, no stored session has a creation time or a
    last activity later than the last reading taken; so the durations that
    lines 292 and 357 compute from a later reading are never negative.  A
    session is created with its last activity read first (line 62) and its
    creation time second (line 63); once a later request has been served
    for it, its creation time is no later than its last activity. *)
Theorem timestamps_ordered t st :
  reachable_at t st ->
  timestamps_ok t st /\
  (forall now sessionId s, t <= now -> sessionData st !! sessionId = Some s ->
     0 <= now - createdAt s /\ 0 <= now - lastActivity s) /\
  (forall r now, regular (req_sessionId r) st ->
     t <= req_now r -> req_now r <= req_created r -> req_created r <= now ->
     0 <= now - createdAt (touched r st)) /\
  (forall r s s', t <= req_now r ->
     sessionData st !! req_sessionId r = Some s ->
     sessionData (snd (handler r st)) !! req_sessionId r = Some s' ->
     createdAt s' <= lastActivity s').
Proof.
  intros H.
  assert (Hok : timestamps_ok t st).
  { induction H as [t|t st e _ IH Hle Hse]; [by intros j s|].
    destruct e as [r|now]; simpl in *.
    - by apply (handler_timestamps r st t).
    - intros j s. rewrite sweep_lookup.
      destruct (sessionData st !! j) as [s0|] eqn:E; [|done].
      destruct (expired now s0); [done|]. intros [= <-]. destruct (IH _ _ E). lia. }
  split; [done|]. split; [|split].
  - intros now j s Hnow Hs. destruct (Hok j s Hs). lia.
  - intros r now _ Hle Hrc Hnow. unfold touched.
    destruct (sessionData st !! req_sessionId r) as [s|] eqn:E; simpl; [|lia].
    destruct (Hok _ _ E). lia.
  - intros r s s' Hle Hs Hs'. destruct (kept_lastActivity r st s' Hs') as [-> ->].
    unfold touched. rewrite Hs. simpl. destruct (Hok _ _ Hs). lia.
Qed.

Lemma timestamps_ordered_witness :
  reachable_at 5000 at_confirmation /\ timestamps_ok 5000 at_confirmation.
Proof.
  assert (H : reachable_at 5000 at_confirmation).
  { unfold at_confirmation, at_farm_size. cbn [foldl].
    apply (at_step 4000 _ (Post (call "1*Jane Wanjiru*1*1*3.5" 5000))); [|simpl; lia..].
    apply (at_step 3000 _ (Post (call "1*Jane Wanjiru*1*1" 4000))); [|simpl; lia..].
    apply (at_step 2000 _ (Post (call "1*Jane Wanjiru*1" 3000))); [|simpl; lia..].
    apply (at_step 1000 _ (Post (call "1*Jane Wanjiru" 2000))); [|simpl; lia..].
    apply (at_step 0 _ (Post (call "1" 1000))); [|simpl; lia..].
    apply (at_step 0 _ (Post (call "" 0))); [|simpl; lia..].
    apply at_initial. }
  split; [exact H|]. exact (proj1 (timestamps_ordered 5000 at_confirmation H)).
Defined.

(** ** The health endpoint *)

Lemma registry_or_same r st :
  farmerDatabase (snd (handler r st)) = farmerDatabase st \/
  farmerDatabase (snd (handler r st))
  = <[req_phoneNumber r :=
        mkFarmer (farmerData (touched r st)) (req_phoneNumber r) (req_date r)]>
      (farmerDatabase st).
Proof.
  destruct (handler_effect r st) as [(_ & -> & _)|(_ & _ & [-> | (_ & _ & _ & ->)])]; auto.
Qed.


(** X17. The counts of [GET /health] follow the requests.  A request
    whose session id is stored, or names no inherited property, changes
    [activeSessions] by one session at most: the count after it, plus one
    if its session id was stored before, equals the count before, plus one
    if the response is a [CON] response.  [registeredFarmers]
    never decreases and grows by one at most per request.  A tick of the
    sweeper never raises [activeSessions] and leaves [registeredFarmers]
    as it is. *)
Theorem health_counts r st :
  (regular (req_sessionId r) st ->
   (activeSessions (health (snd (handler r st)))
    + (match sessionData st !! req_sessionId r with Some _ => 1 | None => 0 end)
    = activeSessions (health st)
      + (if startsWith "CON " (fst (handler r st)) then 1 else 0))%nat) /\
  (registeredFarmers (health st) <= registeredFarmers (health (snd (handler r st))))%nat /\
  (registeredFarmers (health (snd (handler r st))) <= S (registeredFarmers (health st)))%nat /\
  (forall now,
     (activeSessions (health (sweep now st)) <= activeSessions (health st))%nat /\
     registeredFarmers (health (sweep now st)) = registeredFarmers (health st)).
Proof.
  unfold health. cbn [activeSessions registeredFarmers].
  split; [|split; [|split]].
  - intros _. destruct (handler_effect r st) as [(Hc & _ & s1 & -> & _)|(He & -> & _)].
    + rewrite Hc, map_size_insert. destruct (sessionData st !! req_sessionId r); simpl; lia.
    + rewrite (end_not_continue _ He), map_size_delete.
      destruct (sessionData st !! req_sessionId r) eqn:E; simpl; [|lia].
      assert (size (sessionData st) <> 0%nat) by (apply (map_size_ne_0_lookup_2 _ (req_sessionId r)); eauto).
      lia.
  - destruct (registry_or_same r st) as [-> | ->]; [lia|].
    rewrite map_size_insert. destruct (farmerDatabase st !! req_phoneNumber r); simpl; lia.
  - destruct (registry_or_same r st) as [-> | ->]; [lia|].
    rewrite map_size_insert. destruct (farmerDatabase st !! req_phoneNumber r); simpl; lia.
  - intros now. split; [|done]. apply map_subseteq_size, map_subseteq_spec.
    intros j s. rewrite sweep_lookup. destruct (sessionData st !! j) as [s0|]; [|done].
    by destruct (expired now s0).
Qed.

Lemma health_counts_witness :
  (activeSessions (health (snd (handler (call "" 0) initial))) + 0
   = activeSessions (health initial)
     + (if startsWith "CON " (fst (handler (call "" 0) initial)) then 1 else 0))%nat.
Proof.
  refine (proj1 (health_counts (call "" 0) initial) _).
  right. reflexivity.
Defined.

(** ** What [parseFloat] lets through *)

Lemma binary_round_aux_signed sx q e l : signed sx (binary_round_aux prec emax sx q e l).
Proof.
  unfold binary_round_aux.
  destruct (shr_fexp prec emax q e l) as [mrs' e'].
  destruct (shr_fexp prec emax _ e' loc_Exact) as [mrs'' e''].
  destruct (shr_m mrs''); [done| |done]. by destruct (e'' <=? emax - prec).
Qed.

Lemma round_decimal_signed sx m e10 : signed sx (round_decimal sx m e10).
Proof.
  unfold round_decimal, round_ratio. destruct (0 <=? e10).
  - destruct (SFdiv_core_binary prec emax (m * 10 ^ e10) 0 1 0) as [[q e] l].
    apply binary_round_aux_signed.
  - destruct (SFdiv_core_binary prec emax m 0 (10 ^ (- e10)) 0) as [[q e] l].
    apply binary_round_aux_signed.
Qed.

Lemma unsignedLiteral_signed sx s : signed sx (unsignedLiteral sx s).
Proof.
  unfold unsignedLiteral. destruct (startsWith "Infinity" s); [done|].
  destruct (digits s 0 0) as [[ip ni] r]. destruct r as [|c r1].
  - destruct (0 <? ni); [apply round_decimal_signed|done].
  - destruct (Ascii.eqb c ".").
    + destruct (digits r1 ip 0) as [[m nf] r2].
      destruct ((0 <? ni) || (0 <? nf)); [apply round_decimal_signed|done].
    + destruct (0 <? ni); [apply round_decimal_signed|done].
Qed.

Lemma negative_refused x : signed true x -> accepted x = false.
Proof. by destruct x as [[]|[]| |[] m e]. Qed.

Lemma unsignedLiteral_start c r :
  accepted (unsignedLiteral false (String c r)) = true ->
  is_digit c = true \/ c = "."%char \/ c = "I"%char.
Proof.
  destruct (is_digit c) eqn:Hd; [by left|].
  destruct (Ascii.eqb_spec c ".") as [->|Hdot]; [by right; left|].
  destruct (Ascii.eqb_spec c "I") as [->|HI]; [by right; right|].
  unfold unsignedLiteral.
  change (startsWith "Infinity" (String c r))
    with (Ascii.eqb "I" c && startsWith "nfinity" r).
  destruct (Ascii.eqb_spec "I" c) as [E|_]; [by subst|].
  cbn [andb digits]. rewrite Hd.
  destruct (Ascii.eqb_spec c "."); [done|]. done.
Qed.

(** X18. What the farm-size guard can let through.  An entry whose first
    character after leading white space is a minus sign is never
    accepted, whatever follows it; and an accepted entry begins, after
    leading white space, with a digit, a dot, a plus sign or the letter
    [I] (of [Infinity]).  So negative sizes and texts that do not start
    like a number get the farm-size prompt again. *)
Theorem accepted_entry_shape latest :
  (forall rest, trimStart latest = String "-" rest ->
     accepted (parseFloat latest) = false) /\
  (accepted (parseFloat latest) = true ->
   exists c rest, trimStart latest = String c rest /\
     (is_digit c = true \/ c = "."%char \/ c = "+"%char \/ c = "I"%char)).
Proof.
  unfold parseFloat. split.
  - intros rest ->. cbn [Ascii.eqb Bool.eqb]. apply negative_refused, unsignedLiteral_signed.
  - destruct (trimStart latest) as [|c r]; [done|].
    destruct (Ascii.eqb_spec c "+") as [->|_]; [eauto 10|].
    destruct (Ascii.eqb_spec c "-") as [->|_].
    + intros H. by rewrite (negative_refused _ (unsignedLiteral_signed true r)) in H.
    + intros H. exists c, r. split; [done|].
      destruct (unsignedLiteral_start c r H) as [?|[?|?]]; auto.
Qed.

Lemma accepted_entry_shape_witness :
  accepted (parseFloat " -2.5 acres") = false.
Proof.
  apply (proj1 (accepted_entry_shape " -2.5 acres") "2.5 acres"). reflexivity.
Defined.

(** ** Complete dialogues *)

Lemma join_decoded l :
  Forall entry l -> l <> [] ->
  inputLevel (join l) = Z.of_nat (length l) /\
  currentInput (join l) = default "" (last l) /\
  String.eqb (join l) "" = false.
Proof.
  intros Hl Hne.
  assert (Hlevel : inputLevel (join l) = Z.of_nat (length l))
    by (unfold inputLevel; by rewrite userInputs_join).
  split; [done|]. split; [by rewrite currentInput_last, userInputs_join|].
  destruct (String.eqb_spec (join l) "") as [E|]; [|done].
  rewrite E in Hlevel. destruct l; [done|]. simpl in Hlevel. discriminate Hlevel.
Qed.

Lemma counties_entry k c : counties k = Some c -> entry k /\ String.eqb k "8" = false.
Proof.
  intros H%counties_table. unfold county_codes in H. simpl in H.
  repeat destruct H as [[= <- <-]|H]; done.
Qed.

Lemma crops_entry k c : crops k = Some c -> entry k /\ String.eqb k "9" = false.
Proof.
  intros H%crops_table. unfold crop_codes in H. simpl in H.
  repeat destruct H as [[= <- <-]|H]; done.
Qed.

Lemma accepted_guard x : accepted x = true -> isNaN x || le_zero x = false.
Proof. unfold accepted. by destruct (isNaN x || le_zero x). Qed.

Ltac entries :=
  repeat first
    [ apply List.Forall_nil
    | apply List.Forall_cons; [first [assumption | by split]|] ].

Ltac decode_text :=
  match goal with
  | |- context [flow (mkRequest _ _ (join ?l) _ _ _)] =>
      let Hl := fresh in let Hc := fresh in let Hn := fresh in
      destruct (join_decoded l ltac:(entries) ltac:(discriminate)) as (Hl & Hc & Hn);
      cbv [length Z.of_nat Pos.of_succ_nat Pos.succ] in Hl;
      cbv [default from_option last id] in Hc;
      unfold flow;
      cbn [req_text req_sessionId req_phoneNumber req_now req_created req_date];
      rewrite Hn, Hl, Hc; clear Hl Hc Hn
  end.

Ltac dispatch_step :=
  rewrite handler_store; decode_text;
  cbn [Z.eqb Pos.eqb String.eqb Ascii.eqb Bool.eqb stage set_lastActivity set_stage
       set_farmerData farmerData stage_eqb andb orb];
  rewrite ?assign_store, ?register_store, ?cleanup_store; cbv beta iota zeta.

Ltac finish_dialogue Hnew :=
  unfold without, register; cbn [sessionData farmerDatabase];
  rewrite (delete_id _ _ Hnew); reflexivity.

(** X19. Every complete dialogue registers what was entered.  Starting
    from an unseen session id (not in the store, and naming no inherited
    property), with a phone number under which line 236 files an entry
    (any but ["__proto__"]), send the empty text, then one entry more with
    each request: ["1"], a name, a county (a code of
    the menu, or ["8"] and then a county of one's own), a crop (a code of
    the menu, or ["9"] and then a crop of one's own), a farm size that the
    guard accepts, and ["1"].  Names, counties and crops of one's own are
    any non-empty texts without ['*'].  The responses are the prompts in
    order, the confirmation screen and the success text, both showing the
    entered data; the registry then holds under the phone number the
    record with the name, the county and crop meant, the parsed farm size
    and the date of the last request, and the session is gone. *)
Theorem complete_dialogue_registers st sessionId phone clock created date
    name county crop size c k :
  sessionData st !! sessionId = None ->
  plain sessionId = true ->
  phone <> "__proto__" ->
  entry name ->
  pick_means counties county c ->
  pick_means crops crop k ->
  entry size ->
  accepted (parseFloat size) = true ->
  let inputs := registration_inputs name county crop size in
  let data := mkFarmerData (Some name) (Some c) (Some k) (Some (parseFloat size)) in
  serve st (dialogue sessionId phone clock created date (cumulative inputs)) =
  (([generateMainMenu; namePrompt; countyMenu]
    ++ pick_prompts customCountyPrompt generateCropMenu county
    ++ pick_prompts customCropPrompt farmSizePrompt crop
    ++ [generateConfirmation data; registrationSuccessful data])%list,
   mkState (sessionData st)
     (<[phone := mkFarmer data phone (date (length inputs))]> (farmerDatabase st))).
Proof.
  intros Hnew _ _ Hname Hcounty Hcrop Hsize Hacc inputs data.
  pose proof (accepted_guard _ Hacc) as Hguard.
  unfold inputs, registration_inputs, cumulative, dialogue.
  destruct county as [code|other]; destruct crop as [code'|other']; simpl in Hcounty, Hcrop;
    repeat match goal with
    | H : counties _ = Some _ |- _ =>
        let He := fresh in let H8 := fresh in
        destruct (counties_entry _ _ H) as [He H8]; revert H H8
    | H : crops _ = Some _ |- _ =>
        let He := fresh in let H9 := fresh in
        destruct (crops_entry _ _ H) as [He H9]; revert H H9
    | H : entry _ /\ _ = _ |- _ => destruct H as [? ->]
    end; intros;
    cbn [pick_inputs pick_prompts app prefixes_from dialogue_from serve];
    rewrite (handler_new _ _ _ _ _ _ _ Hnew); run_flow;
    repeat (dispatch_step;
            repeat match goal with
            | H : String.eqb _ _ = false |- _ => rewrite H
            | H : counties _ = Some _ |- _ => rewrite H
            | H : crops _ = Some _ |- _ => rewrite H
            end;
            rewrite ?Hguard, ?assign_store, ?register_store, ?cleanup_store;
            cbv beta iota zeta);
    finish_dialogue Hnew.
Qed.

Lemma complete_dialogue_registers_witness :
  snd (serve initial
         (dialogue "ATUid_7" caller (fun i => 1000 * Z.of_nat i)
            (fun i => 1000 * Z.of_nat i + 1) (fun _ => "today")
            (cumulative (registration_inputs "Otieno" (Typed "Siaya") (Listed "6") "12"))))
  = mkState ∅
      (<[caller := mkFarmer
           (mkFarmerData (Some "Otieno") (Some "Siaya") (Some "Tea") (Some (parseFloat "12")))
           caller "today"]> ∅).
Proof.
  rewrite (complete_dialogue_registers initial "ATUid_7" caller (fun i => 1000 * Z.of_nat i)
             (fun i => 1000 * Z.of_nat i + 1)
             (fun _ => "today") "Otieno" (Typed "Siaya") (Listed "6") "12" "Siaya" "Tea").
  - reflexivity.
  - reflexivity.
  - reflexivity.
  - discriminate.
  - by split.
  - by split.
  - reflexivity.
  - by split.
  - vm_compute; reflexivity.
Defined.

(** ** The tester page *)

Lemma response_is_kind r st :
  startsWith "CON " (fst (handler r st)) = true \/
  startsWith "END " (fst (handler r st)) = true.
Proof. destruct (handler_effect r st) as [(H & _)|(H & _)]; auto. Qed.


Lemma startsWith_split p s :
  startsWith p s = true -> s = p ++ drop_bytes (String.length p) s.
Proof.
  revert s. induction p as [|a p IH]; intros [|b s]; cbn [startsWith append String.length drop_bytes];
    try done.
  intros [Ha H]%andb_prop. apply Ascii.eqb_eq in Ha. subst.
  change (String b s = String b (p ++ drop_bytes (String.length p) s)).
  f_equal. by apply IH.
Qed.

(** X20. The page and the decoder agree on the entries.  What the server
    decodes from the text that [sendUSSD] sends is what it decoded from
    the text sent before, followed by the entries decoded from the typed
    input; a new session starts with no entry.  So a typed input that is
    a non-empty text without ['*'] raises the input level by one and is
    the latest entry, an empty input sends the same entries again, and a
    typed ['*'] splits the input into several entries. *)
Theorem tester_accumulates fresh page :
  userInputs (Tester.textAccumulator (Tester.prepare fresh page)) =
    (if Tester.sessionActive page
     then userInputs (Tester.textAccumulator page) ++ userInputs (Tester.textInput page)
     else [])%list /\
  (Tester.sessionActive page = true -> entry (Tester.textInput page) ->
     inputLevel (Tester.textAccumulator (Tester.prepare fresh page))
     = inputLevel (Tester.textAccumulator page) + 1 /\
     currentInput (Tester.textAccumulator (Tester.prepare fresh page))
     = Tester.textInput page).
Proof.
  assert (H : userInputs (Tester.textAccumulator (Tester.prepare fresh page)) =
    (if Tester.sessionActive page
     then userInputs (Tester.textAccumulator page) ++ userInputs (Tester.textInput page)
     else [])%list).
  { unfold Tester.prepare. destruct (Tester.sessionActive page); [|done]. cbn [negb].
    unfold truthy.
    destruct (String.eqb_spec (Tester.textInput page) "") as [->|Hin]; cbn [negb].
    - by rewrite userInputs_empty, app_nil_r.
    - destruct (String.eqb_spec (Tester.textAccumulator page) "") as [->|Hacc]; cbn [negb].
      + done.
      + cbn [Tester.textAccumulator]. apply (userInputs_app _ (Tester.textInput page)). }
  split; [done|]. intros Hact Hentry. rewrite Hact in H.
  rewrite (userInputs_entry _ Hentry) in H.
  split.
  - unfold inputLevel. rewrite H, length_app. simpl. lia.
  - by rewrite currentInput_last, H, last_snoc.
Qed.

Lemma tester_accumulates_witness :
  inputLevel (Tester.textAccumulator
                (Tester.prepare "test-1"
                   (Tester.mkPage "test-0" caller "1*Jane Wanjiru" true false "4" "")))
  = inputLevel "1*Jane Wanjiru" + 1.
Proof.
  refine (proj1 (proj2 (tester_accumulates "test-1"
            (Tester.mkPage "test-0" caller "1*Jane Wanjiru" true false "4" "")) _ _)).
  - reflexivity.
  - by split.
Defined.

(** X21. The page stays in step with the server.  After [sendUSSD] the
    page holds a session exactly when the server stores one under the id
    that was sent: on a [CON] response the page keeps the id and the text
    it sent, on an [END] response it forgets both.  The text input is
    emptied, and the display shows the response without its [CON ] or
    [END ] prefix. *)
Theorem tester_in_step fresh now created date page server :
  let sent := Tester.request now created date (Tester.prepare fresh page) in
  let page' := fst (Tester.sendUSSD fresh now created date page server) in
  let server' := snd (Tester.sendUSSD fresh now created date page server) in
  server' = snd (handler sent server) /\
  (Tester.sessionActive page' = true <-> is_Some (sessionData server' !! req_sessionId sent)) /\
  (Tester.sessionActive page' = true ->
     Tester.sessionId page' = req_sessionId sent /\
     Tester.textAccumulator page' = req_text sent) /\
  (Tester.sessionActive page' = false ->
     Tester.sessionId page' = "" /\ Tester.textAccumulator page' = "") /\
  Tester.textInput page' = "" /\
  (fst (handler sent server) = "CON " ++ Tester.ussdDisplay page' \/
   fst (handler sent server) = "END " ++ Tester.ussdDisplay page').
Proof.
  intros sent page' server'. unfold page', server', Tester.sendUSSD. fold sent.
  pose proof (end_test sent server) as Hend3.
  pose proof (response_is_kind sent server) as Hkind.
  assert (Hactive : Tester.sessionActive (Tester.prepare fresh page) = true).
  { unfold Tester.prepare. destruct (Tester.sessionActive page) eqn:E; [|done]. cbn [negb].
    by destruct (truthy (Tester.textInput page)). }
  destruct (handler sent server) as [data st'] eqn:E. cbn [fst snd] in *.
  split; [done|]. unfold Tester.receive.
  assert (Hshow : data = "CON " ++ Tester.ussdDisplay (Tester.displayResponse data (Tester.prepare fresh page))
                  \/ data = "END " ++ Tester.ussdDisplay (Tester.displayResponse data (Tester.prepare fresh page))).
  { unfold Tester.displayResponse. cbn [Tester.ussdDisplay].
    destruct (startsWith "CON " data) eqn:Ec.
    - left. apply (startsWith_split "CON " data Ec).
    - destruct Hkind as [Hk|Hk]; [congruence|]. rewrite Hk. right.
      apply (startsWith_split "END " data Hk). }
  destruct (startsWith "END" data) eqn:E3.
  - cbn [Tester.endSession Tester.sessionActive Tester.sessionId Tester.textAccumulator
         Tester.textInput Tester.ussdDisplay Tester.clearInput].
    split; [|split; [done|split; [by intros _|split; [done|exact Hshow]]]].
    split; [done|]. rewrite (proj1 Hend3 eq_refl). by intros [? ?].
  - cbn [Tester.sessionActive Tester.sessionId Tester.textAccumulator Tester.textInput
         Tester.ussdDisplay Tester.clearInput Tester.displayResponse].
    rewrite Hactive.
    split; [|split; [by intros _|split; [done|split; [done|exact Hshow]]]].
    split; [|done]. intros _.
    destruct (sessionData st' !! req_sessionId sent) eqn:El; [eauto|].
    discriminate (proj2 Hend3 eq_refl).
Qed.

(** ** What the registry holds *)

Lemma flow_size r s0 st s1 :
  size_ok (farmerData s0) ->
  sessionData (snd (flow r s0 (store (req_sessionId r) s0 st))) !! req_sessionId r = Some s1 ->
  size_ok (farmerData s1).
Proof.
  intros Hok. destruct s0 as [p stg d la ca]. unfold flow. simpl stage.
  destruct stg; cbn [stage_eqb andb]; repeat case_match; simpl snd;
    rewrite ?assign_store, ?register_store, ?cleanup_store;
    unfold store, without; cbn [sessionData];
    rewrite ?lookup_insert_eq, ?lookup_delete_eq; try done;
    intros [= <-]; try exact Hok.
  intros x [= <-]. unfold accepted.
  match goal with H : isNaN _ || le_zero _ = false |- _ => by rewrite H end.
Qed.

Lemma handler_sizes r st : sizes_ok st -> sizes_ok (snd (handler r st)).
Proof.
  intros Hst j s1. destruct (decide (j = req_sessionId r)) as [->|Hne].
  - rewrite handler_flow. apply flow_size. unfold touched.
    destruct (sessionData st !! req_sessionId r) as [s|] eqn:E; [|by intros x].
    exact (Hst _ _ E).
  - destruct (handler_effect r st) as [(_ & _ & s2 & -> & _)|(_ & -> & _)].
    + rewrite lookup_insert_ne by done. apply Hst.
    + rewrite lookup_delete_ne by done. apply Hst.
Qed.

Lemma handler_registry r st :
  store_ok st -> sizes_ok st -> registry_ok st -> registry_ok (snd (handler r st)).
Proof.
  intros Hstore Hsizes Hreg phone f.
  destruct (handler_effect r st)
    as [(_ & -> & _)|(_ & _ & [-> | (Hstage & _ & _ & ->)])]; [apply Hreg..|].
  destruct (decide (req_phoneNumber r = phone)) as [<-|Hne];
    [|rewrite lookup_insert_ne by done; apply Hreg].
  rewrite lookup_insert_eq. intros [= <-]. unfold touched in *.
  destruct (sessionData st !! req_sessionId r) as [s|] eqn:E; [|discriminate Hstage].
  simpl in *. split; [done|]. split.
  - pose proof (Hstore _ _ E) as Hok. unfold session_ok in Hok. by rewrite Hstage in Hok.
  - exact (Hsizes _ _ E).
Qed.

(** X22. What the registry holds is sound.  In every state reached from
    the empty store by requests and sweeper ticks, each registry entry is
    filed under the phone number it records, has a name, a county, a crop
    and a farm size, and its farm size passed the guard: it is a positive
    finite Number or plus infinity, never [NaN], zero or negative. *)
Theorem registry_entries_sound st phone f :
  reachable st ->
  farmerDatabase st !! phone = Some f ->
  farmer_phoneNumber f = phone /\
  complete (farmer_data f) /\
  (exists x, farmSize (farmer_data f) = Some x /\
     (x = S754_infinity false \/ exists m e, x = S754_finite false m e)).
Proof.
  intros Hreach Hf.
  assert (H : store_ok st /\ sizes_ok st /\ registry_ok st).
  { clear Hf. induction Hreach as [|st e _ (Hstore & Hsizes & Hreg)].
    - split; [|split]; intros j x H; unfold initial in H; cbn [sessionData farmerDatabase] in H;
        by rewrite lookup_empty in H.
    - destruct e as [r|now]; simpl.
      + split; [by apply handler_preserves|]. split; [by apply handler_sizes|].
        by apply handler_registry.
      + split; [by apply sweep_preserves|]. split; [|done].
        intros j s. rewrite sweep_lookup.
        destruct (sessionData st !! j) as [s0|] eqn:E; [|done].
        destruct (expired now s0); [done|]. intros [= <-]. exact (Hsizes _ _ E). }
  destruct H as (_ & _ & Hreg). destruct (Hreg _ _ Hf) as (Hp & Hc & Hs).
  split; [done|]. split; [done|].
  destruct Hc as (_ & _ & _ & [x Hx]). exists x. split; [done|].
  apply accepted_iff. by apply Hs.
Qed.

Lemma registry_entries_sound_witness :
  farmer_phoneNumber (mkFarmer jane caller "15/08/2025, 21:30:00") = caller /\
  complete jane.
Proof.
  assert (Hreach : reachable (step at_confirmation (Post (call "1*Jane Wanjiru*1*1*3.5*1" 6000)))).
  { unfold at_confirmation, at_farm_size. cbn [foldl].
    repeat apply reachable_step. apply reachable_initial. }
  destruct (registry_entries_sound _ caller (mkFarmer jane caller "15/08/2025, 21:30:00") Hreach)
    as (H1 & H2 & _); [vm_compute; reflexivity|].
  split; [exact H1|exact H2].
Defined.

(** X23. First contact.  A request with an unseen session id (not in the
    store, and naming no inherited property) either leaves the state
    exactly as it was, when it is answered with an [END] response, or
    creates a session with the phone number of the request, its two clock
    readings as last activity and creation time, and no collected data, at
    [MAIN_MENU] or, for the single entry ["1"], at [ENTER_NAME]; it never
    writes the registry. *)
Theorem first_contact r st :
  sessionData st !! req_sessionId r = None ->
  plain (req_sessionId r) = true ->
  (startsWith "END " (fst (handler r st)) = true -> snd (handler r st) = st) /\
  (startsWith "CON " (fst (handler r st)) = true ->
   exists a,
     snd (handler r st)
     = store (req_sessionId r)
         (mkSession (req_phoneNumber r) a (mkFarmerData None None None None)
            (req_now r) (req_created r)) st /\
     (a = MAIN_MENU \/ a = ENTER_NAME)) /\
  farmerDatabase (snd (handler r st)) = farmerDatabase st.
Proof.
  intros Hnew _.
  assert (Ht : touched r st = newSession (req_phoneNumber r) (req_now r) (req_created r))
    by (unfold touched; by rewrite Hnew).
  destruct (handler_effect r st)
    as [(Hc & Hdb & s1 & Hs & Hp & Hcr & Hla & He & Hf)|(He & Hs & Hdb)].
  - rewrite Ht in *. cbn [newSession phoneNumber createdAt lastActivity stage farmerData] in *.
    split; [intros E; by rewrite (end_not_continue _ E) in Hc|]. split; [|done].
    intros _. exists (stage s1). split.
    + apply state_eq; [|done]. rewrite Hs. cbn [store sessionData]. f_equal.
      unfold field_changes in Hf. destruct s1 as [p a [n c k f] la ca]. cbn in *. subst.
      destruct Hf as ([->|[? _]] & [->|[[?|?] _]] & [->|[[?|?] _]] & [->|[? _]]); done.
    + by destruct (stage s1); auto.
  - assert (Hdb' : farmerDatabase (snd (handler r st)) = farmerDatabase st).
    { destruct Hdb as [?|(Hstage & _)]; [done|]. by rewrite Ht in Hstage. }
    split; [|split; [intros E; by rewrite (end_not_continue _ He) in E|done]].
    intros _. apply state_eq; [|done]. rewrite Hs. by apply delete_id.
Qed.

Lemma first_contact_witness :
  snd (handler (mkRequest "ATUid_5" caller "1*Jane Wanjiru*1" 7000 7001 "") at_farm_size)
  = at_farm_size.
Proof.
  refine (proj1 (first_contact (mkRequest "ATUid_5" caller "1*Jane Wanjiru*1" 7000 7001 "")
            at_farm_size _ _) _); vm_compute; reflexivity.
Defined.

(** ** The safeguards *)

Lemma flow_not_guard_text r session st :
  startsWith "END S" (fst (flow r session st)) = false /\
  startsWith "END Req" (fst (flow r session st)) = false.
Proof. unfold flow. repeat case_match; split; reflexivity. Qed.

(** X24. The safeguards of the handler never fire.  After lines 56-68 the
    session is always found, so the branch for a lost session (lines
    74-90) is not taken; the text computed by the dispatch is never empty
    or blank, so the response is that text and the guard of lines 277-282
    neither replaces it nor deletes the session.  Hence no request is
    answered with the system-error text, nor with the text of the
    deadline. *)
Theorem safeguards_never_fire r st :
  is_Some (sessionData (touch r st) !! req_sessionId r) /\
  ensureResponse (req_sessionId r)
    (flow r (touched r st) (store (req_sessionId r) (touched r st) st))
  = flow r (touched r st) (store (req_sessionId r) (touched r st) st) /\
  fst (handler r st) <> systemError /\
  fst (handler r st) <> requestTimeout.
Proof.
  split; [|split; [|split]].
  - rewrite touch_store. unfold store. cbn [sessionData]. rewrite lookup_insert_eq. eauto.
  - destruct (flow r (touched r st) (store (req_sessionId r) (touched r st) st))
      as [response st'] eqn:E.
    apply ensureResponse_directive.
    change response with (fst (response, st')). rewrite <- E. apply flow_directive.
  - rewrite handler_flow. intros E.
    pose proof (proj1 (flow_not_guard_text r (touched r st)
                  (store (req_sessionId r) (touched r st) st))) as H.
    rewrite E in H. discriminate H.
  - rewrite handler_flow. intros E.
    pose proof (proj2 (flow_not_guard_text r (touched r st)
                  (store (req_sessionId r) (touched r st) st))) as H.
    rewrite E in H. discriminate H.
Qed.

(** ** Asking again for the farm size *)

(** X25. There is no limit to the farm-size prompt.  Any number of
    requests in a row whose latest entry the guard refuses are each
    answered with the prompt and its error note, and leave the session at
    [ENTER_FARM_SIZE] with everything it had collected; only its last
    activity moves, to the time of the last request. *)
Theorem farm_size_asked_again rs : forall st sessionId s,
  sessionData st !! sessionId = Some s ->
  stage s = ENTER_FARM_SIZE ->
  Forall (refused_size sessionId) rs ->
  serve st rs =
  (List.map (fun _ => farmSizeRetry) rs,
   match last rs with
   | Some r => store sessionId (set_lastActivity (req_now r) s) st
   | None => st
   end).
Proof.
  induction rs as [|r rs IH]; intros st sessionId s Hs Hstage Hall; [done|].
  apply Forall_cons in Hall as [(Hid & Hreach & Href) Hall]. subst sessionId.
  cbn [serve List.map].
  rewrite (farm_size_flow r st s Hs Hstage Hreach). cbv zeta. rewrite Href.
  rewrite (IH (store (req_sessionId r) (set_lastActivity (req_now r) s) st)
             (req_sessionId r) (set_lastActivity (req_now r) s)).
  - f_equal. rewrite last_cons. destruct (last rs); [|done].
    by rewrite store_store.
  - unfold store. cbn [sessionData]. apply lookup_insert_eq.
  - exact Hstage.
  - exact Hall.
Qed.

Lemma farm_size_asked_again_witness :
  serve at_farm_size
    [call "1*Jane Wanjiru*1*1*abc" 5000; call "1*Jane Wanjiru*1*1*abc*-2" 6000;
     call "1*Jane Wanjiru*1*1*abc*-2*0" 7000]
  = ([farmSizeRetry; farmSizeRetry; farmSizeRetry],
     store "ATUid_1" (set_lastActivity 7000 farm_size_session) at_farm_size).
Proof.
  refine (farm_size_asked_again
            [call "1*Jane Wanjiru*1*1*abc" 5000; call "1*Jane Wanjiru*1*1*abc*-2" 6000;
             call "1*Jane Wanjiru*1*1*abc*-2*0" 7000]
            at_farm_size "ATUid_1" farm_size_session _ _ _).
  - vm_compute; reflexivity.
  - reflexivity.
  - repeat (apply List.Forall_cons;
            [split; [reflexivity|split; [split; vm_compute; discriminate|vm_compute; reflexivity]]|]).
    apply List.Forall_nil.
Defined.

(** ** Driving the server from the tester page *)

Lemma join_snoc sent x :
  sent <> [] -> join (sent ++ [x]) = join sent ++ String star x.
Proof.
  induction sent as [|a sent IH]; [done|]. intros _.
  destruct sent as [|b sent]; [done|].
  change (join ((a :: b :: sent) ++ [x])) with (a ++ String star (join ((b :: sent) ++ [x]))).
  rewrite IH by done.
  change (join (a :: b :: sent)) with (a ++ String star (join (b :: sent))).
  generalize (join (b :: sent)). intros t. clear.
  induction a as [|c a IH]; [done|].
  change (String c (a ++ String star (t ++ String star x))
          = String c ((a ++ String star t) ++ String star x)).
  by rewrite IH.
Qed.

Lemma prepare_text fresh sid phone sent waiting x display :
  Forall entry sent -> entry x ->
  Tester.textAccumulator
    (Tester.prepare fresh (Tester.mkPage sid phone (join sent) true waiting x display))
  = join (sent ++ [x]).
Proof.
  intros Hsent [Hx _]. unfold Tester.prepare.
  cbn [Tester.sessionActive Tester.textInput Tester.textAccumulator negb]. rewrite Hx.
  destruct sent as [|a sent]; [done|].
  destruct (join_decoded (a :: sent) Hsent ltac:(done)) as (_ & _ & Hne).
  unfold truthy. rewrite Hne. cbn [negb Tester.textAccumulator].
  by rewrite join_snoc.
Qed.

Lemma serve_nonempty st r rs : fst (serve st (r :: rs)) <> [].
Proof. cbn [serve]. destruct (handler r st), (serve _ rs). done. Qed.

(** X26. Typing the entries into the tester page is the same, for the
    server, as sending their cumulative texts.  From a page with an active
    session whose text so far joins the entries [sent], typing further
    entries one by one and sending each leaves the server in the state in
    which the requests with the cumulative texts leave it, as long as
    every response but the last is a [CON] response. *)
Theorem tester_follows_dialogue fresh clock created date inputs : forall i page st sent,
  Tester.sessionActive page = true ->
  Tester.textAccumulator page = join sent ->
  Forall entry sent ->
  Forall entry inputs ->
  Forall (fun response => startsWith "CON " response = true)
    (removelast
       (fst (serve st
               (dialogue_from i (Tester.sessionId page) (Tester.phoneNumber page)
                  clock created date (prefixes_from sent inputs))))) ->
  snd (tester_run i fresh clock created date inputs (page, st))
  = snd (serve st
           (dialogue_from i (Tester.sessionId page) (Tester.phoneNumber page)
              clock created date (prefixes_from sent inputs))).
Proof.
  induction inputs as [|x rest IH]; intros i page st sent Hact Hacc Hsent Hin Hcon; [done|].
  apply Forall_cons in Hin as [Hx Hrest].
  destruct page as [sid phone acc active waiting input display].
  cbn [Tester.sessionActive Tester.textAccumulator Tester.sessionId Tester.phoneNumber] in *.
  subst active acc.
  cbn [tester_run prefixes_from dialogue_from] in *.
  unfold type_and_send, Tester.sendUSSD, Tester.request.
  cbn [fst snd Tester.sessionId Tester.phoneNumber Tester.textAccumulator Tester.sessionActive
       Tester.waitingForText Tester.ussdDisplay].
  rewrite (prepare_text fresh sid phone sent waiting x display Hsent Hx).
  assert (Hid : Tester.sessionId
                  (Tester.prepare fresh (Tester.mkPage sid phone (join sent) true waiting x display))
                = sid /\
                Tester.phoneNumber
                  (Tester.prepare fresh (Tester.mkPage sid phone (join sent) true waiting x display))
                = phone /\
                Tester.sessionActive
                  (Tester.prepare fresh (Tester.mkPage sid phone (join sent) true waiting x display))
                = true).
  { unfold Tester.prepare. cbn [Tester.sessionActive Tester.textInput negb].
    by destruct (truthy x). }
  destruct Hid as (Hsid & Hphone & Hactive). rewrite Hsid, Hphone.
  cbn [serve] in *.
  destruct (handler (mkRequest sid phone (join (sent ++ [x])) (clock i) (created i) (date i)) st)
    as [data st1] eqn:E.
  destruct rest as [|y rest'].
  - cbn [tester_run prefixes_from dialogue_from serve snd]. done.
  - set (rs := dialogue_from (S i) sid phone clock created date
                 (prefixes_from (sent ++ [x]) (y :: rest'))) in *.
    destruct (serve st1 rs) as [out st2] eqn:Es.
    assert (Hout : out <> []).
    { pose proof (serve_nonempty st1
                    (mkRequest sid phone (join ((sent ++ [x]) ++ [y])) (clock (S i))
                       (created (S i)) (date (S i)))
                    (dialogue_from (S (S i)) sid phone clock created date
                       (prefixes_from ((sent ++ [x]) ++ [y]) rest'))) as Hne.
      unfold rs in Es. cbn [prefixes_from dialogue_from] in Es. by rewrite Es in Hne. }
    cbn [fst snd] in *.
    destruct out as [|o out]; [done|].
    change (removelast (data :: o :: out)) with (data :: removelast (o :: out)) in Hcon.
    apply Forall_cons in Hcon as [Hdata Hcon].
    unfold Tester.receive. rewrite (continue_not_end _ Hdata).
    cbn [Tester.clearInput Tester.displayResponse Tester.sessionId Tester.phoneNumber
         Tester.textAccumulator Tester.sessionActive Tester.textInput Tester.ussdDisplay].
    rewrite Hsid, Hphone, Hactive.
    rewrite (prepare_text fresh sid phone sent waiting x display Hsent Hx).
    rewrite (IH (S i) _ st1 (sent ++ [x])%list); cbn [Tester.sessionActive Tester.textAccumulator
      Tester.sessionId Tester.phoneNumber]; try done.
    + fold rs. by rewrite Es.
    + apply Forall_app. split; [done|]. by apply Forall_cons.
    + fold rs. by rewrite Es.
Qed.

Lemma tester_follows_dialogue_witness :
  snd (tester_run 2 "test-1" (fun i => 1000 * Z.of_nat i) (fun i => 1000 * Z.of_nat i + 1)
         (fun _ => "today") ["Jane Wanjiru"; "1"] (page_at_name, at_name))
  = snd (serve at_name
           (dialogue_from 2 "ATUid_1" caller (fun i => 1000 * Z.of_nat i)
              (fun i => 1000 * Z.of_nat i + 1) (fun _ => "today")
              (prefixes_from ["1"] ["Jane Wanjiru"; "1"]))).
Proof.
  apply (tester_follows_dialogue "test-1" (fun i => 1000 * Z.of_nat i)
           (fun i => 1000 * Z.of_nat i + 1) (fun _ => "today")
           ["Jane Wanjiru"; "1"] 2%nat page_at_name at_name ["1"]).
  - reflexivity.
  - reflexivity.
  - repeat (apply List.Forall_cons; [by split|]). apply List.Forall_nil.
  - repeat (apply List.Forall_cons; [by split|]). apply List.Forall_nil.
  - vm_compute. repeat constructor.
Defined.
